(** * uPD7759 encoder: a shallow embedding of [encode.c]

    The development follows [encode.c] function by function.  C integers are
    modelled as [Z] with the narrowing conversions of the source written out
    ([uint16_t], [uint8_t], [char]).  The byte stream written with [fwrite] is
    modelled as the trace of the writes, each tagged with the write site it
    comes from: the frequency byte ([fwrite(&freq, ...)]) or a packed data byte
    ([fwrite(&output_sample, ...)]).

    Conventions.
    - [char] is the signed 8-bit type (the source tests [sample < 0]).
    - [int] arithmetic is exact: the differences taken from the two tables are
      assumed to stay inside [int].
    - The two tables [upd7759_step] and [upd7759_state_table] are declared
      [extern] and defined outside [encode.c]; they are parameters here.  The C
      expression [t[i]] is modelled by a total function of the index; the
      predicate [in_table] says when the index lies inside the 16-entry object.
    - The sample buffer is a list; the loop index [i] is a [uint32_t], so the
      list is understood to hold fewer than 2^32 samples.
    - [read_pcm_file] releases the [input_file] record before
      [output_upd_file] reads it; the fields are taken as [read_pcm_file] left
      them. *)

From Stdlib Require Import ZArith List Lia Bool.
From Stdlib Require String.
Import String.StringSyntax.
Delimit Scope string_scope with string.
From Stdlib Require Ascii.
Import Ascii.AsciiSyntax.
Delimit Scope char_scope with char.
Import ListNotations.
Local Open Scope Z_scope.

(** ** Integer conversions of C *)

(** Conversion to [uint16_t]. *)
Definition to_uint16 (x : Z) : Z := x mod 65536.

(** Conversion to [uint8_t]. *)
Definition to_uint8 (x : Z) : Z := x mod 256.

(** Conversion to (signed) [char]: the low 8 bits, read in two's complement. *)
Definition to_char (x : Z) : Z := (x + 128) mod 256 - 128.

(** ** Types of the source *)

(** [frequency_upd7759_t]. *)
Definition NONE : Z := Z.shiftl 0 3.
Definition FIVEKHZ : Z := 0x5f.
Definition SIXKHZ : Z := 0x59.
Definition EIGHTKHZ : Z := 0x53.

(** The fields of [SF_INFO] that the program reads. *)
Record SF_INFO : Set := mkInfo {
  samplerate : Z;
  channels : Z;
  format : Z
}.

(** [SF_FORMAT_PCM_16] of [sndfile.h]. *)
Definition SF_FORMAT_PCM_16 : Z := 0x0002.

Definition EXIT_SUCCESS : Z := 0.
Definition EXIT_FAILURE : Z := 1.

(** One [fwrite] of one byte to the output, tagged by its write site. *)
Inductive write : Set :=
| WFreq (b : Z)   (* fwrite(&freq, sizeof(freq), 1, o) *)
| WData (b : Z).  (* fwrite(&output_sample, sizeof(output_sample), 1, o) *)

Definition byte_of (w : write) : Z :=
  match w with WFreq b => b | WData b => b end.

Definition is_data (w : write) : bool :=
  match w with WFreq _ => false | WData _ => true end.

(** The bytes that reach the file, in order. *)
Definition bytes_of (ws : list write) : list Z := map byte_of ws.

(** The local variables of [output_upd_file] that live across iterations. *)
Record locals : Set := mkLocals {
  state : Z;
  onesixty : Z;
  output_sample : Z
}.

(** An index that lies inside a 16-entry array. *)
Definition in_table (i : Z) : Prop := 0 <= i <= 15.

(** ** [get_frequency] *)

Definition get_frequency (rate : Z) : Z :=
  if rate =? 5000 then FIVEKHZ
  else if rate =? 6000 then SIXKHZ
  else if rate =? 8000 then EIGHTKHZ
  else 0.

(** ** The clamp applied to [state] and to [sample]

    [if (x < 0) x = 0; else if (x > 15) x = 15;] *)
Definition clamp (x : Z) : Z :=
  if x <? 0 then 0 else if x >? 15 then 15 else x.

Section Encoder.

(** [extern const int upd7759_step[16][16]] and
    [extern const int upd7759_state_table[16]]. *)
Variable upd7759_step : Z -> Z -> Z.
Variable upd7759_state_table : Z -> Z.

(** *** The first half of the loop body: from [data[i]] to the new [state]
    and the new [sample] (lines 197-211). *)

(** [sample] after [sample = (sample2 >> 7)] and its clamp. *)
Definition working_value (d : Z) : Z :=
  let sample2 := to_uint16 d in
  let sample := to_char (Z.shiftr sample2 7) in
  clamp sample.

(** Returns the new [state] and the new [sample]. *)
Definition encode_sample (st : Z) (d : Z) : Z * Z :=
  let sample2 := to_uint16 d in
  let sample := to_char (Z.shiftr sample2 7) in
  let st := if st <? 0 then 0 else if st >? 15 then 15 else st in
  let sample := if sample <? 0 then 0 else if sample >? 15 then 15 else sample in
  let st := upd7759_state_table sample - st in
  let sample := to_char (upd7759_step st sample - sample) in
  (st, sample).

(** *** One iteration of the [for] loop *)

Definition loop_body (freq : Z) (l : locals) (d : Z) : locals * list write :=
  let '(st, sample) := encode_sample (state l) d in
  let '(out, w1) :=
    if Z.land (onesixty l) 1 =? 0
    then (to_uint8 (Z.land sample 0x0f), [])
    else
      let o := to_uint8 (Z.lor (Z.shiftl (output_sample l) 4) (Z.land sample 0x0f)) in
      (o, [WData o]) in
  let c := onesixty l + 1 in
  if c =? 256
  then (mkLocals st 0 out, w1 ++ [WFreq freq])
  else (mkLocals st c out, w1).

(** *** The whole [for] loop over the sample buffer *)

Fixpoint loop (freq : Z) (l : locals) (data : list Z) : locals * list write :=
  match data with
  | [] => (l, [])
  | d :: rest =>
      let '(l1, w1) := loop_body freq l d in
      let '(l2, w2) := loop freq l1 rest in
      (l2, w1 ++ w2)
  end.

(** *** The purge after the loop *)

Definition purge (l : locals) : list write :=
  if Z.land (onesixty l) 1 =? 0 then []
  else [WData (to_uint8 (Z.shiftl (output_sample l) 4))].

(** *** [output_upd_file] *)

Definition initial_locals : locals := mkLocals 0 0 0.

Definition output_upd_file (rate : Z) (data : list Z) : list write :=
  let freq := get_frequency rate in
  let '(l, ws) := loop freq initial_locals data in
  WFreq freq :: ws ++ purge l.

(** The value of [state] when [output_upd_file] leaves the loop. *)
Definition final_state (rate : Z) (data : list Z) : Z :=
  state (fst (loop (get_frequency rate) initial_locals data)).

(** *** [read_pcm_file]: the checks; [inl] is the message given to
    [kill_str], which ends the process. *)

Definition read_pcm_file (info : SF_INFO) : String.string + unit :=
  if (negb (samplerate info =? 5000)
      && negb (samplerate info =? 6000)
      && negb (samplerate info =? 8000))%bool
  then inl "Only sample rates of 5khz, 6khz, or 8kz are supported."%string
  else if negb (channels info =? 1)
  then inl "Only single channel audio is supported."%string
  else if Z.land (format info) SF_FORMAT_PCM_16 =? 0
  then inl "Audio data must be 16-bit PCM."%string
  else inr tt.

(** *** [main]: the exit status and the bytes written to the stream [o] of
    [output_upd_file].  [input] is [None] when [sf_open] fails,
    [output_opens] is whether [fopen]/[fdopen] of the output succeeds.  The
    report that [read_pcm_file] prints with [-v], after its three checks, is
    not part of the model. *)

Definition main (input : option (SF_INFO * list Z)) (output_opens : bool)
  : Z * list write :=
  match input with
  | None => (EXIT_FAILURE, [])
  | Some (info, data) =>
      match read_pcm_file info with
      | inl _ => (EXIT_FAILURE, [])
      | inr _ =>
          if output_opens
          then (EXIT_SUCCESS, output_upd_file (samplerate info) data)
          else (EXIT_FAILURE, [])
      end
  end.

(** ** Derived notions used in the statements *)

(** The 4-bit codes [sample & 0x0f] of a run of samples, the state threaded
    from one sample to the next as the loop does. *)
Fixpoint nibbles (st : Z) (data : list Z) : list Z :=
  match data with
  | [] => []
  | d :: rest =>
      let '(st', sample) := encode_sample st d in
      Z.land sample 0x0f :: nibbles st' rest
  end.

(** The states assigned by [state = upd7759_state_table[sample] - state],
    one per sample: each is the row index of the [upd7759_step] lookup of
    that sample. *)
Fixpoint row_indices (st : Z) (data : list Z) : list Z :=
  match data with
  | [] => []
  | d :: rest =>
      let st' := fst (encode_sample st d) in
      st' :: row_indices st' rest
  end.

End Encoder.

(** The data bytes of a trace, markers dropped. *)
Definition data_bytes (ws : list write) : list Z :=
  flat_map (fun w => match w with WData b => [b] | WFreq _ => [] end) ws.

(** The frequency bytes of a trace, data dropped. *)
Definition freq_bytes (ws : list write) : list Z :=
  flat_map (fun w => match w with WFreq b => [b] | WData _ => [] end) ws.

(** Two codes per byte, first code in the high half; a last unpaired code is
    shifted into the high half.  This is the layout the statements compare the
    data bytes of the program with. *)
Fixpoint pack_pairs (ns : list Z) : list Z :=
  match ns with
  | a :: b :: rest => Z.lor (Z.shiftl a 4) b :: pack_pairs rest
  | [a] => [Z.shiftl a 4]
  | [] => []
  end.

(** A block of the stream: packed bytes closed by the frequency byte. *)
Definition block (freq : Z) (bs : list Z) : list write :=
  map WData bs ++ [WFreq freq].

(** ** A concrete pair of tables

    Used to evaluate the model on concrete inputs.  The entries follow the
    adaptation tables of uPD7759 decoders: sixteen rows of step sizes and the
    sixteen state deltas.  Outside the tables the lookups give 0, a stand-in
    for whatever the C read finds there. *)
Module Tables.

Definition lookup (t : list Z) (i : Z) : Z :=
  if i <? 0 then 0 else nth (Z.to_nat i) t 0.

Definition step_rows : list (list Z) :=
  [ [0;  0;  1;  2;  3;   5;   7;  10;  0;   0;  -1;  -2;  -3;   -5;   -7;  -10];
    [0;  1;  2;  3;  4;   6;   8;  13;  0;  -1;  -2;  -3;  -4;   -6;   -8;  -13];
    [0;  1;  2;  4;  5;   7;  10;  15;  0;  -1;  -2;  -4;  -5;   -7;  -10;  -15];
    [0;  1;  3;  4;  6;   9;  13;  19;  0;  -1;  -3;  -4;  -6;   -9;  -13;  -19];
    [0;  2;  3;  5;  8;  11;  15;  23;  0;  -2;  -3;  -5;  -8;  -11;  -15;  -23];
    [0;  2;  4;  7; 10;  14;  19;  29;  0;  -2;  -4;  -7; -10;  -14;  -19;  -29];
    [0;  3;  5;  8; 12;  16;  22;  33;  0;  -3;  -5;  -8; -12;  -16;  -22;  -33];
    [1;  4;  7; 10; 15;  20;  29;  43; -1;  -4;  -7; -10; -15;  -20;  -29;  -43];
    [1;  4;  8; 13; 18;  25;  35;  53; -1;  -4;  -8; -13; -18;  -25;  -35;  -53];
    [1;  6; 10; 16; 22;  31;  43;  64; -1;  -6; -10; -16; -22;  -31;  -43;  -64];
    [2;  7; 12; 19; 27;  37;  51;  76; -2;  -7; -12; -19; -27;  -37;  -51;  -76];
    [2;  9; 16; 24; 34;  46;  64;  96; -2;  -9; -16; -24; -34;  -46;  -64;  -96];
    [3; 11; 19; 29; 41;  57;  79; 117; -3; -11; -19; -29; -41;  -57;  -79; -117];
    [4; 13; 24; 36; 50;  69;  96; 143; -4; -13; -24; -36; -50;  -69;  -96; -143];
    [4; 16; 29; 44; 62;  85; 118; 175; -4; -16; -29; -44; -62;  -85; -118; -175];
    [6; 20; 36; 54; 76; 104; 144; 214; -6; -20; -36; -54; -76; -104; -144; -214] ].

Definition state_deltas : list Z :=
  [-1; -1; 0; 0; 1; 2; 2; 3; -1; -1; 0; 0; 1; 2; 2; 3].

Definition step (s v : Z) : Z :=
  if s <? 0 then 0 else lookup (nth (Z.to_nat s) step_rows []) v.

Definition state_table (v : Z) : Z := lookup state_deltas v.

End Tables.

(** ** Notions used in the statements *)

(** The invariant of the loop: the counter stays below 256, and on an odd
    count [output_sample] holds one pending 4-bit code. *)
Definition wf (l : locals) : Prop :=
  0 <= onesixty l < 256 /\
  (onesixty l mod 2 = 1 -> 0 <= output_sample l <= 15).

(** In the trace [ws], the writes at the indices that are multiples of
    [period + 1] are frequency bytes of value [freq], and all other writes are
    data bytes: a frequency byte first, and again after every [period] data
    bytes. *)
Definition marker_every (period : Z) (freq : Z) (ws : list write) : Prop :=
  forall (i : nat) (w : write),
    nth_error ws i = Some w ->
    if Z.of_nat i mod (period + 1) =? 0 then w = WFreq freq else is_data w = true.

(** The working value in the words of the description: the signed sample
    shifted right arithmetically by 7, and the result of the shift clipped
    into 0..15, a negative result to 0 and a result above 15 to 15, nothing
    wrapped. *)
Definition described_working_value (d : Z) : Z :=
  let shifted := Z.shiftr d 7 in
  if shifted <? 0 then 0 else if 15 <? shifted then 15 else shifted.

(** A 16-bit signed sample. *)
Definition is_sample (d : Z) : Prop := -32768 <= d <= 32767.

(** The number of frequency bytes and the total number of bytes for [n]
    samples in the words of the description: one frequency byte at the start
    and one more per 256 packed bytes. *)
Definition described_marker_count (n : Z) : Z :=
  let packed := (n + 1) / 2 in 1 + packed / 256.

Definition described_total (n : Z) : Z :=
  let packed := (n + 1) / 2 in packed + described_marker_count n.

(** ** The loop with its index

    [for (i = 0; i < input_file->data_size; ++i)] with [uint32_t i] and
    [uint64_t data_size]: the comparison is made in 64 bits, the increment
    wraps at 2^32.  [data] is the buffer read at index [i]; the result is
    [None] when the fuel is used up before the loop condition fails. *)

(** Conversion to [uint32_t]. *)
Definition to_uint32 (x : Z) : Z := x mod 4294967296.

Section Indexed.

Variable upd7759_step : Z -> Z -> Z.
Variable upd7759_state_table : Z -> Z.

Fixpoint for_loop (fuel : nat) (freq : Z) (data : Z -> Z) (data_size : Z)
  (i : Z) (l : locals) : option (locals * list write) :=
  match fuel with
  | O => None
  | S fuel' =>
      if i <? data_size
      then
        let '(l1, w1) := loop_body upd7759_step upd7759_state_table freq l (data i) in
        match for_loop fuel' freq data data_size (to_uint32 (i + 1)) l1 with
        | Some (l2, w2) => Some (l2, w1 ++ w2)
        | None => None
        end
      else Some (l, [])
  end.

End Indexed.

(** The buffer entries [data[0]], ..., [data[n-1]] as a list. *)
Definition buffer_list (data : Z -> Z) (n : nat) : list Z :=
  map (fun k => data (Z.of_nat k)) (seq 0 n).

(** ** [process_arguments] and the choice of the streams

    [getopt] is outside the program: one element of the list is one return of
    [getopt(argc, argv, "i:o:v")] before it returns -1, the option character
    with the [optarg] it leaves. *)

Record options_t : Set := mkOptions {
  inputFileName : option String.string;
  outputFileName : option String.string;
  verbose : Z
}.

(** [options = {0,}]. *)
Definition options_initial : options_t := mkOptions None None 0.

(** The body of the [while] loop of [process_arguments]. *)
Definition process_argument (o : options_t) (r : Ascii.ascii * String.string)
  : options_t :=
  let '(c, optarg) := r in
  if Ascii.eqb c "i"%char
  then mkOptions (Some optarg) (outputFileName o) (verbose o)
  else if Ascii.eqb c "o"%char
  then mkOptions (inputFileName o) (Some optarg) (verbose o)
  else if Ascii.eqb c "v"%char
  then mkOptions (inputFileName o) (outputFileName o) 1
  else o.

Definition process_arguments (returns : list (Ascii.ascii * String.string))
  : options_t :=
  fold_left process_argument returns options_initial.

(** Where [open_input] reads from and [open_output] writes to. *)
Inductive stream : Set :=
| Standard            (* STDIN_FILENO, STDOUT_FILENO *)
| Named (name : String.string).

Definition open_input (o : options_t) : stream :=
  match inputFileName o with
  | Some name => Named name
  | None => Standard
  end.

Definition open_output (o : options_t) : stream :=
  match outputFileName o with
  | Some name => Named name
  | None => Standard
  end.

(** The argument of the last return of [getopt] with option character [c]. *)
Fixpoint last_argument (c : Ascii.ascii)
  (returns : list (Ascii.ascii * String.string)) : option String.string :=
  match returns with
  | [] => None
  | (c', optarg) :: rest =>
      match last_argument c rest with
      | Some a => Some a
      | None => if Ascii.eqb c' c then Some optarg else None
      end
  end.

(** ** Reading the stream back

    Notions for the statements about what the byte stream keeps. *)

(** A write with the value of its frequency byte replaced. *)
Definition with_freq (freq : Z) (w : write) : write :=
  match w with
  | WFreq _ => WFreq freq
  | WData b => WData b
  end.

(** Drops the byte at every position that is a multiple of 129; [k] is the
    number of bytes left before the next one to drop. *)
Fixpoint deframe_from (k : nat) (bs : list Z) : list Z :=
  match bs with
  | [] => []
  | b :: rest =>
      match k with
      | O => deframe_from 128 rest
      | S k' => b :: deframe_from k' rest
      end
  end.

Definition deframe (bs : list Z) : list Z := deframe_from 0 bs.

(** The two halves of every byte, high half first. *)
Fixpoint unpack_pairs (bs : list Z) : list Z :=
  match bs with
  | [] => []
  | b :: rest => Z.shiftr b 4 :: Z.land b 0x0f :: unpack_pairs rest
  end.

(** Two samples that agree on bits 7 to 14. *)
Definition same_bits_7_to_14 (d d' : Z) : Prop :=
  (d / 128) mod 256 = (d' / 128) mod 256.

(** ** Arithmetic of the conversions *)

Lemma land_15_mod (x : Z) : Z.land x 0x0f = x mod 16.
Proof. change 0x0f with (Z.ones 4). rewrite Z.land_ones by lia. reflexivity. Qed.

Lemma to_char_mod16 (x : Z) : to_char x mod 16 = x mod 16.
Proof. unfold to_char. Z.div_mod_to_equations. lia. Qed.

Lemma nibble_of_char (x : Z) : Z.land (to_char x) 0x0f = x mod 16.
Proof. rewrite land_15_mod. apply to_char_mod16. Qed.

Lemma nibble_range (x : Z) : 0 <= Z.land x 0x0f <= 15.
Proof. rewrite land_15_mod. Z.div_mod_to_equations. lia. Qed.

Lemma clamp_range (x : Z) : 0 <= clamp x <= 15.
Proof.
  unfold clamp.
  destruct (x <? 0) eqn:E1; [lia|].
  destruct (x >? 15) eqn:E2; [lia|].
  apply Z.ltb_ge in E1. rewrite Z.gtb_ltb in E2. apply Z.ltb_ge in E2. lia.
Qed.

Lemma clamp_id (x : Z) : 0 <= x <= 15 -> clamp x = x.
Proof.
  intros H. unfold clamp.
  destruct (x <? 0) eqn:E1; [apply Z.ltb_lt in E1; lia|].
  destruct (x >? 15) eqn:E2; [rewrite Z.gtb_ltb in E2; apply Z.ltb_lt in E2; lia|].
  reflexivity.
Qed.

(** With the low code below 16 the two halves do not overlap. *)
Lemma lor_shiftl_4 (p n : Z) : 0 <= n <= 15 -> Z.lor (Z.shiftl p 4) n = p * 16 + n.
Proof.
  intros Hn.
  assert (Hdisj : Z.land (Z.shiftl p 4) n = 0).
  { apply Z.bits_inj'. intros i Hi.
    rewrite Z.land_spec, Z.bits_0.
    destruct (Z.ltb_spec i 4).
    - rewrite Z.shiftl_spec_low by lia. reflexivity.
    - replace n with (Z.land n (Z.ones 4)).
      + rewrite Z.land_spec, Z.ones_spec_high by lia.
        rewrite !andb_false_r. reflexivity.
      + rewrite Z.land_ones by lia. apply Z.mod_small. lia. }
  rewrite <- Z.lxor_lor by exact Hdisj.
  rewrite <- Z.add_nocarry_lxor by exact Hdisj.
  rewrite Z.shiftl_mul_pow2 by lia. reflexivity.
Qed.

Lemma packed_byte_halves (p n : Z) :
  0 <= p <= 15 -> 0 <= n <= 15 ->
  let b := Z.lor (Z.shiftl p 4) n in
  to_uint8 b = b /\ Z.shiftr b 4 = p /\ Z.land b 0x0f = n.
Proof.
  intros Hp Hn b. subst b. rewrite lor_shiftl_4 by exact Hn.
  rewrite land_15_mod, Z.shiftr_div_pow2 by lia. unfold to_uint8.
  change (2 ^ 4) with 16. Z.div_mod_to_equations. lia.
Qed.

Lemma purged_byte_halves (p : Z) :
  0 <= p <= 15 ->
  let b := Z.shiftl p 4 in
  to_uint8 b = b /\ Z.shiftr b 4 = p /\ Z.land b 0x0f = 0.
Proof.
  intros Hp b. subst b.
  rewrite land_15_mod, Z.shiftr_div_pow2, Z.shiftl_mul_pow2 by lia. unfold to_uint8.
  change (2 ^ 4) with 16. Z.div_mod_to_equations. lia.
Qed.

Ltac zdiv := Z.div_mod_to_equations; lia.

Lemma land_1_mod (c : Z) : Z.land c 1 = c mod 2.
Proof. change 1 with (Z.ones 1). rewrite Z.land_ones by lia. reflexivity. Qed.

(** ** The loop, one iteration at a time *)

Section LoopFacts.

Variable upd7759_step : Z -> Z -> Z.
Variable upd7759_state_table : Z -> Z.
Variable freq : Z.

Local Abbreviation encode := (encode_sample upd7759_step upd7759_state_table).
Local Abbreviation body := (loop_body upd7759_step upd7759_state_table freq).
Local Abbreviation run := (loop upd7759_step upd7759_state_table freq).
Local Abbreviation codes := (nibbles upd7759_step upd7759_state_table).

Lemma wf_initial : wf initial_locals.
Proof. split; simpl; [lia | intros H; discriminate H]. Qed.

Lemma encode_sample_eq (st d : Z) :
  encode st d =
    (upd7759_state_table (working_value d) - clamp st,
     to_char (upd7759_step (upd7759_state_table (working_value d) - clamp st)
                           (working_value d) - working_value d)).
Proof. reflexivity. Qed.

(** An even count: the code is held back, nothing is written. *)
Lemma body_even (l : locals) (d : Z) :
  wf l -> onesixty l mod 2 = 0 ->
  body l d =
    (mkLocals (fst (encode (state l) d)) (onesixty l + 1)
              (Z.land (snd (encode (state l) d)) 0x0f), []).
Proof.
  intros [Hc _] Hev. unfold loop_body.
  destruct (encode (state l) d) as [st sample]. cbn [fst snd].
  rewrite land_1_mod, Hev. cbn [Z.eqb].
  destruct (Z.eqb_spec (onesixty l + 1) 256) as [E|_]; [exfalso; zdiv|].
  unfold to_uint8. rewrite Z.mod_small by (pose proof (nibble_range sample); lia).
  reflexivity.
Qed.

(** An odd count: the pair is written, and the frequency byte after it when
    the count reaches 256. *)
Lemma body_odd (l : locals) (d : Z) :
  wf l -> onesixty l mod 2 = 1 ->
  let b := Z.lor (Z.shiftl (output_sample l) 4)
                 (Z.land (snd (encode (state l) d)) 0x0f) in
  body l d =
    if onesixty l + 1 =? 256
    then (mkLocals (fst (encode (state l) d)) 0 b, [WData b; WFreq freq])
    else (mkLocals (fst (encode (state l) d)) (onesixty l + 1) b, [WData b]).
Proof.
  intros [Hc Hp] Hodd b. unfold loop_body.
  destruct (encode (state l) d) as [st sample]. cbn [fst snd] in *.
  rewrite land_1_mod, Hodd. cbn [Z.eqb].
  destruct (packed_byte_halves (output_sample l) (Z.land sample 0x0f)
              (Hp Hodd) (nibble_range sample)) as [Hb _].
  cbv zeta in Hb. subst b. cbv zeta. rewrite Hb.
  destruct (onesixty l + 1 =? 256); reflexivity.
Qed.

Lemma body_odd_inside (l : locals) (d : Z) :
  wf l -> onesixty l mod 2 = 1 -> onesixty l <> 255 ->
  let b := Z.lor (Z.shiftl (output_sample l) 4)
                 (Z.land (snd (encode (state l) d)) 0x0f) in
  body l d = (mkLocals (fst (encode (state l) d)) (onesixty l + 1) b, [WData b]).
Proof.
  intros Hl Ho Hc b. pose proof (body_odd l d Hl Ho) as E. cbv zeta in E.
  rewrite E. destruct (Z.eqb_spec (onesixty l + 1) 256); [lia | reflexivity].
Qed.

Lemma body_odd_last (l : locals) (d : Z) :
  wf l -> onesixty l = 255 ->
  let b := Z.lor (Z.shiftl (output_sample l) 4)
                 (Z.land (snd (encode (state l) d)) 0x0f) in
  body l d = (mkLocals (fst (encode (state l) d)) 0 b, [WData b; WFreq freq]).
Proof.
  intros Hl Hc b.
  assert (Ho : onesixty l mod 2 = 1) by (rewrite Hc; reflexivity).
  pose proof (body_odd l d Hl Ho) as E. cbv zeta in E.
  rewrite E, Hc. reflexivity.
Qed.

Lemma body_wf (l : locals) (d : Z) : wf l -> wf (fst (body l d)).
Proof.
  intros Hl. destruct (Z.eq_dec (onesixty l mod 2) 0) as [Hev|Hodd].
  - rewrite body_even by assumption. cbn [fst]. destruct Hl as [Hc _].
    split; cbn [onesixty output_sample].
    + zdiv.
    + intros _. apply nibble_range.
  - assert (Ho : onesixty l mod 2 = 1) by zdiv.
    pose proof (body_odd l d Hl Ho) as E. cbv zeta in E. rewrite E.
    destruct Hl as [Hc _].
    destruct (Z.eqb_spec (onesixty l + 1) 256); cbn [fst];
      split; cbn [onesixty output_sample]; try lia;
      intros Habs; exfalso; revert Habs; zdiv || (cbn; discriminate).
Qed.

Lemma run_cons (l : locals) (d : Z) (rest : list Z) :
  run l (d :: rest) =
    (fst (run (fst (body l d)) rest), snd (body l d) ++ snd (run (fst (body l d)) rest)).
Proof.
  cbn [loop].
  destruct (body l d) as [l1 w1]. cbn [fst snd].
  destruct (run l1 rest) as [l2 w2]. reflexivity.
Qed.

Lemma run_app (l : locals) (a b : list Z) :
  run l (a ++ b) =
    (fst (run (fst (run l a)) b), snd (run l a) ++ snd (run (fst (run l a)) b)).
Proof.
  revert l. induction a as [|d a IH]; intros l.
  - change (run l []) with (l, @nil write). cbn [app fst snd].
    destruct (run l b); reflexivity.
  - cbn [app]. rewrite !run_cons, IH. cbn [fst snd]. rewrite app_assoc. reflexivity.
Qed.

Lemma run_wf (l : locals) (data : list Z) : wf l -> wf (fst (run l data)).
Proof.
  revert l. induction data as [|d rest IH]; intros l Hl.
  - exact Hl.
  - rewrite run_cons. cbn [fst]. apply IH, body_wf, Hl.
Qed.

End LoopFacts.

(** ** The shape of the trace *)

Section Framing.

Variable upd7759_step : Z -> Z -> Z.
Variable upd7759_state_table : Z -> Z.
Variable freq : Z.

Local Abbreviation encode := (encode_sample upd7759_step upd7759_state_table).
Local Abbreviation body := (loop_body upd7759_step upd7759_state_table freq).
Local Abbreviation run := (loop upd7759_step upd7759_state_table freq).
Local Abbreviation codes := (nibbles upd7759_step upd7759_state_table).
Local Abbreviation len l := (Z.of_nat (length l)).

(** Fewer samples than are left in the block: only data bytes are written. *)
Lemma run_short (data : list Z) : forall l,
  wf l -> onesixty l + len data < 256 ->
  exists bs,
    snd (run l data) = map WData bs /\
    onesixty (fst (run l data)) = onesixty l + len data /\
    len bs = (onesixty l mod 2 + len data) / 2.
Proof.
  induction data as [|d rest IH]; intros l Hl Hlt.
  - exists []. cbn. repeat split; try lia. destruct Hl. zdiv.
  - rewrite run_cons. cbn [fst snd]. cbn [length] in Hlt |- *.
    pose proof (body_wf upd7759_step upd7759_state_table freq l d Hl) as Hl1.
    destruct (Z.eq_dec (onesixty l mod 2) 0) as [Hev|Hodd].
    + rewrite body_even in * by assumption. cbn [fst snd] in *.
      destruct (IH _ Hl1) as (bs & E & Hc & Hn); [cbn [onesixty]; lia|].
      cbn [onesixty] in Hc, Hn.
      exists bs. rewrite E. repeat split; [lia | revert Hn; zdiv].
    + assert (Ho : onesixty l mod 2 = 1) by zdiv.
      assert (Hin : onesixty l <> 255) by lia.
      pose proof (body_odd_inside upd7759_step upd7759_state_table freq l d Hl Ho Hin) as E0.
      cbv zeta in E0. rewrite E0 in *. cbn [fst snd] in *.
      destruct (IH _ Hl1) as (bs & E & Hc & Hn); [cbn [onesixty]; lia|].
      cbn [onesixty] in Hc, Hn.
      eexists (_ :: bs). rewrite E. cbn [map app length].
      repeat split; [lia | revert Hn; zdiv].
Qed.

(** Exactly the samples left in the block: data bytes, then the frequency
    byte, and the counter is back at 0. *)
Lemma run_to_marker (data : list Z) : forall l,
  wf l -> onesixty l + len data = 256 -> data <> [] ->
  exists bs,
    snd (run l data) = block freq bs /\
    onesixty (fst (run l data)) = 0 /\
    len bs = (onesixty l mod 2 + len data) / 2.
Proof.
  induction data as [|d rest IH]; intros l Hl Hlen Hne; [congruence|].
  rewrite run_cons. cbn [fst snd]. cbn [length] in Hlen |- *.
  pose proof (body_wf upd7759_step upd7759_state_table freq l d Hl) as Hl1.
  destruct rest as [|d' rest'].
  - (* the last sample of the block *)
    assert (Hc : onesixty l = 255) by (cbn [length] in Hlen; lia).
    assert (Ho : onesixty l mod 2 = 1) by (rewrite Hc; reflexivity).
    pose proof (body_odd_last upd7759_step upd7759_state_table freq l d Hl Hc) as E0.
    cbv zeta in E0. rewrite E0. cbn [fst snd loop app onesixty].
    eexists [_]. unfold block. cbn [map app length].
    repeat split. rewrite Ho. reflexivity.
  - destruct (Z.eq_dec (onesixty l mod 2) 0) as [Hev|Hodd].
    + rewrite body_even in * by assumption. cbn [fst snd] in *.
      destruct (IH _ Hl1) as (bs & E & Hc & Hn);
        [cbn [onesixty length] in *; lia | discriminate |].
      cbn [onesixty length] in Hn |- *.
      exists bs. rewrite E. repeat split; [exact Hc | revert Hn; zdiv].
    + assert (Ho : onesixty l mod 2 = 1) by zdiv.
      assert (Hin : onesixty l <> 255) by (cbn [length] in Hlen; lia).
      pose proof (body_odd_inside upd7759_step upd7759_state_table freq l d Hl Ho Hin) as E0.
      cbv zeta in E0. rewrite E0 in *. cbn [fst snd] in *.
      destruct (IH _ Hl1) as (bs & E & Hc & Hn);
        [cbn [onesixty length] in *; lia | discriminate |].
      cbn [onesixty length] in Hn |- *.
      eexists (_ :: bs). rewrite E. unfold block. cbn [map app length].
      repeat split; [exact Hc | revert Hn; zdiv].
Qed.

(** From the start of a block: [k] whole blocks, then the data bytes of the
    samples that are left. *)
Lemma run_blocks (k : nat) : forall data l,
  wf l -> onesixty l = 0 ->
  256 * Z.of_nat k <= len data < 256 * Z.of_nat k + 256 ->
  exists blocks tail,
    snd (run l data) = concat (map (block freq) blocks) ++ map WData tail /\
    Forall (fun bs => len bs = 128) blocks /\
    length blocks = k /\
    onesixty (fst (run l data)) = len data - 256 * Z.of_nat k /\
    len tail = (len data - 256 * Z.of_nat k) / 2.
Proof.
  induction k as [|k IH]; intros data l Hl Hc Hlen.
  - destruct (run_short data l Hl) as (bs & E & Hc' & Hn); [lia|].
    exists [], bs. cbn [map concat app]. rewrite Hc in *.
    repeat split; [exact E | constructor | lia | revert Hn; zdiv].
  - assert (Ha : length (firstn 256 data) = 256%nat)
      by (apply firstn_length_le; lia).
    pose proof (firstn_skipn 256 data) as Hd.
    remember (firstn 256 data) as a eqn:Ea. remember (skipn 256 data) as b eqn:Eb.
    clear Ea Eb. subst data.
    rewrite length_app, Ha in Hlen |- *.
    rewrite run_app. cbn [fst snd].
    destruct (run_to_marker a l Hl) as (bs & E & Hc' & Hn);
      [rewrite Ha; lia | intros ->; discriminate Ha |].
    pose proof (run_wf upd7759_step upd7759_state_table freq l a Hl) as Hl1.
    destruct (IH b _ Hl1 Hc') as (blocks & tail & E' & Hall & Hk & Hc'' & Ht); [lia|].
    exists (bs :: blocks), tail. cbn [map concat]. rewrite E, E', <- app_assoc.
    repeat split.
    + constructor; [|exact Hall]. rewrite Hn, Hc, Ha. reflexivity.
    + cbn [length]. lia.
    + lia.
    + rewrite Ht. f_equal. lia.
Qed.

(** The data bytes of the loop and the purge are the codes, two per byte; a
    code pending on entry goes first. *)
Lemma run_data_bytes (data : list Z) : forall l,
  wf l ->
  data_bytes (snd (run l data) ++ purge (fst (run l data))) =
    pack_pairs ((if onesixty l mod 2 =? 0 then [] else [output_sample l])
                ++ codes (state l) data).
Proof.
  induction data as [|d rest IH]; intros l Hl.
  - cbn [loop fst snd app nibbles]. unfold purge. rewrite land_1_mod.
    destruct (onesixty l mod 2 =? 0) eqn:E; [reflexivity|].
    apply Z.eqb_neq in E. destruct Hl as [Hc Hp].
    assert (Ho : onesixty l mod 2 = 1) by zdiv.
    destruct (purged_byte_halves _ (Hp Ho)) as [Hb _]. cbv zeta in Hb.
    unfold data_bytes. cbn [flat_map app pack_pairs]. rewrite Hb. reflexivity.
  - rewrite run_cons. cbn [fst snd nibbles].
    pose proof (body_wf upd7759_step upd7759_state_table freq l d Hl) as Hl1.
    specialize (IH _ Hl1).
    destruct (encode (state l) d) as [st' sample] eqn:Een.
    unfold data_bytes in *. rewrite <- app_assoc, flat_map_app, IH.
    destruct (Z.eq_dec (onesixty l mod 2) 0) as [Hev|Hodd].
    + rewrite body_even by assumption. rewrite Een. cbn [fst snd onesixty state output_sample].
      rewrite Hev. cbn [Z.eqb flat_map app].
      replace ((onesixty l + 1) mod 2 =? 0) with false
        by (symmetry; apply Z.eqb_neq; zdiv).
      reflexivity.
    + assert (Ho : onesixty l mod 2 = 1) by zdiv.
      pose proof (body_odd upd7759_step upd7759_state_table freq l d Hl Ho) as E0.
      cbv zeta in E0. rewrite Een in E0. cbn [fst snd] in E0. rewrite E0, Ho.
      cbn [Z.eqb app].
      destruct (Z.eqb_spec (onesixty l + 1) 256) as [E256|N256];
        cbn [fst snd onesixty state output_sample flat_map app].
      * cbn [Z.modulo Z.div_eucl Z.eqb snd app pack_pairs]. reflexivity.
      * replace ((onesixty l + 1) mod 2 =? 0) with true
          by (symmetry; apply Z.eqb_eq; zdiv).
        cbn [app pack_pairs]. reflexivity.
Qed.

End Framing.

(** ** Statements about the stream *)

Section Stream.

Variable upd7759_step : Z -> Z -> Z.
Variable upd7759_state_table : Z -> Z.

Local Abbreviation encode := (encode_sample upd7759_step upd7759_state_table).
Local Abbreviation run := (loop upd7759_step upd7759_state_table).
Local Abbreviation codes := (nibbles upd7759_step upd7759_state_table).
Local Abbreviation rows := (row_indices upd7759_step upd7759_state_table).
Local Abbreviation output := (output_upd_file upd7759_step upd7759_state_table).
Local Abbreviation len l := (Z.of_nat (length l)).

Lemma output_eq (rate : Z) (data : list Z) :
  output rate data =
    WFreq (get_frequency rate)
      :: snd (run (get_frequency rate) initial_locals data)
      ++ purge (fst (run (get_frequency rate) initial_locals data)).
Proof.
  unfold output_upd_file.
  destruct (run (get_frequency rate) initial_locals data). reflexivity.
Qed.

(** The trace of [output_upd_file]: the frequency byte, one block of 128 data
    bytes closed by the frequency byte for every 256 samples, then the data
    bytes of the samples left over. *)
Lemma output_structure (rate : Z) (data : list Z) :
  exists blocks tail,
    output rate data =
      WFreq (get_frequency rate)
        :: concat (map (block (get_frequency rate)) blocks) ++ map WData tail /\
    Forall (fun bs => len bs = 128) blocks /\
    len blocks = len data / 256 /\
    len tail = (len data mod 256 + 1) / 2.
Proof.
  set (freq := get_frequency rate).
  set (k := Z.to_nat (len data / 256)).
  assert (Hk : Z.of_nat k = len data / 256) by (subst k; zdiv).
  destruct (run_blocks upd7759_step upd7759_state_table freq k data initial_locals)
    as (blocks & tail & E & Hall & Hlen & Hc & Ht);
    [apply wf_initial | reflexivity | rewrite Hk; zdiv |].
  rewrite output_eq. fold freq. rewrite E. unfold purge. rewrite land_1_mod, Hc.
  destruct (Z.eqb_spec ((len data - 256 * Z.of_nat k) mod 2) 0) as [Hev|Hodd].
  - exists blocks, tail. rewrite app_nil_r.
    repeat split; [exact Hall | lia | rewrite Ht, Hk; revert Hev; rewrite Hk; zdiv].
  - exists blocks, (tail ++ [to_uint8 (Z.shiftl
      (output_sample (fst (run freq initial_locals data))) 4)]).
    rewrite map_app, <- app_assoc. cbn [map].
    repeat split; [exact Hall | lia |].
    rewrite length_app. cbn [length].
    revert Ht Hodd. rewrite Hk. zdiv.
Qed.

(** Every frequency byte written by the loop is [freq]. *)
Lemma run_freq_values (freq : Z) (data : list Z) : forall l b,
  In (WFreq b) (snd (run freq l data)) -> b = freq.
Proof.
  induction data as [|d rest IH]; intros l b Hin.
  - contradiction.
  - rewrite run_cons in Hin. cbn [snd] in Hin.
    apply in_app_or in Hin. destruct Hin as [Hin|Hin]; [|eapply IH; eassumption].
    unfold loop_body in Hin.
    destruct (encode (state l) d) as [st sample].
    destruct (Z.land (onesixty l) 1 =? 0), (onesixty l + 1 =? 256);
      cbn [snd app In] in Hin; intuition congruence.
Qed.

Lemma output_freq_values (rate : Z) (data : list Z) (b : Z) :
  In (WFreq b) (output rate data) -> b = get_frequency rate.
Proof.
  rewrite output_eq. cbn [In]. intros [E|Hin]; [congruence|].
  apply in_app_or in Hin. destruct Hin as [Hin|Hin].
  - eapply run_freq_values; eassumption.
  - unfold purge in Hin.
    destruct (Z.land _ 1 =? 0); cbn [In] in Hin; intuition congruence.
Qed.

(** The data bytes of the whole trace are the codes of the samples, two per
    byte. *)
Lemma output_data_bytes (rate : Z) (data : list Z) :
  data_bytes (output rate data) = pack_pairs (codes 0 data).
Proof.
  rewrite output_eq. unfold data_bytes. cbn [flat_map app].
  pose proof (run_data_bytes upd7759_step upd7759_state_table
                (get_frequency rate) data initial_locals
                (wf_initial)) as E.
  unfold data_bytes in E. rewrite E. reflexivity.
Qed.

End Stream.

(** ** Lists of blocks *)

Section Blocks.

Variable freq : Z.
Local Abbreviation len l := (Z.of_nat (length l)).

Lemma data_bytes_app (a b : list write) :
  data_bytes (a ++ b) = data_bytes a ++ data_bytes b.
Proof. apply flat_map_app. Qed.

Lemma freq_bytes_app (a b : list write) :
  freq_bytes (a ++ b) = freq_bytes a ++ freq_bytes b.
Proof. apply flat_map_app. Qed.

Lemma data_bytes_data (bs : list Z) : data_bytes (map WData bs) = bs.
Proof. induction bs as [|b bs IH]; [reflexivity|]. cbn. f_equal. exact IH. Qed.

Lemma freq_bytes_data (bs : list Z) : freq_bytes (map WData bs) = [].
Proof. induction bs as [|b bs IH]; [reflexivity|]. cbn. exact IH. Qed.

Lemma data_bytes_block (bs : list Z) : data_bytes (block freq bs) = bs.
Proof.
  unfold block. rewrite data_bytes_app, data_bytes_data. apply app_nil_r.
Qed.

Lemma freq_bytes_block (bs : list Z) : freq_bytes (block freq bs) = [freq].
Proof.
  unfold block. rewrite freq_bytes_app, freq_bytes_data. reflexivity.
Qed.

Lemma length_block (bs : list Z) : length (block freq bs) = S (length bs).
Proof. unfold block. rewrite length_app, length_map. cbn [length]. lia. Qed.

Lemma framed_counts (blocks : list (list Z)) (tail : list Z) :
  Forall (fun bs => len bs = 128) blocks ->
  let ws := concat (map (block freq) blocks) ++ map WData tail in
  len (data_bytes ws) = 128 * len blocks + len tail /\
  len (freq_bytes ws) = len blocks /\
  len ws = 129 * len blocks + len tail.
Proof.
  intros Hall. cbv zeta. induction Hall as [|bs blocks Hbs _ IH].
  - cbn [map concat app]. rewrite data_bytes_data, freq_bytes_data, length_map.
    cbn [length]. lia.
  - cbn [map concat]. rewrite <- app_assoc.
    set (rest := concat (map (block freq) blocks) ++ map WData tail) in *.
    rewrite data_bytes_app, freq_bytes_app, !length_app.
    rewrite data_bytes_block, freq_bytes_block, length_block.
    cbn [length]. lia.
Qed.

Lemma framed_marker_every (blocks : list (list Z)) (tail : list Z) :
  Forall (fun bs => len bs = 128) blocks ->
  len tail <= 128 ->
  forall (j : nat) (w : write),
    nth_error (concat (map (block freq) blocks) ++ map WData tail) j = Some w ->
    if (Z.of_nat j + 1) mod 129 =? 0 then w = WFreq freq else is_data w = true.
Proof.
  intros Hall Htail. induction Hall as [|bs blocks Hbs _ IH]; intros j w Hj.
  - cbn [map concat app] in Hj.
    assert (Hlt : (j < length tail)%nat).
    { rewrite <- (length_map WData). apply nth_error_Some. congruence. }
    rewrite nth_error_map in Hj.
    destruct (nth_error tail j) as [b|]; [|discriminate]. injection Hj as <-.
    destruct (Z.eqb_spec ((Z.of_nat j + 1) mod 129) 0) as [E|_]; [exfalso; zdiv | reflexivity].
  - cbn [map concat] in Hj. unfold block at 1 in Hj. rewrite <- !app_assoc in Hj.
    destruct (Nat.lt_ge_cases j (length (map WData bs))) as [Hlt|Hge].
    + rewrite nth_error_app1 in Hj by exact Hlt.
      rewrite length_map in Hlt. rewrite nth_error_map in Hj.
      destruct (nth_error bs j) as [b|]; [|discriminate]. injection Hj as <-.
      destruct (Z.eqb_spec ((Z.of_nat j + 1) mod 129) 0) as [E|_];
        [exfalso; zdiv | reflexivity].
    + rewrite nth_error_app2 in Hj by exact Hge.
      rewrite length_map in Hge, Hj.
      destruct (j - length bs)%nat as [|j'] eqn:Ej.
      * cbn [app nth_error] in Hj. injection Hj as <-.
        assert (Ez : Z.of_nat j = 128) by lia.
        rewrite Ez. reflexivity.
      * cbn [app nth_error] in Hj. specialize (IH j' w Hj).
        replace ((Z.of_nat j + 1) mod 129) with ((Z.of_nat j' + 1) mod 129);
          [exact IH|].
        replace (Z.of_nat j + 1) with (Z.of_nat j' + 1 + 1 * 129) by lia.
        rewrite Z.mod_add by lia. reflexivity.
Qed.

End Blocks.

(** ** Pairs of codes *)

Lemma pack_pairs_nth (j : nat) : forall ns : list Z,
  (2 * j + 1 < length ns)%nat ->
  nth_error (pack_pairs ns) j =
    Some (Z.lor (Z.shiftl (nth (2 * j) ns 0) 4) (nth (2 * j + 1) ns 0)).
Proof.
  induction j as [|j IH]; intros ns Hlt.
  - destruct ns as [|a [|b rest]]; cbn [length] in Hlt; try lia. reflexivity.
  - destruct ns as [|a [|b rest]]; cbn [length] in Hlt; try lia.
    cbn [pack_pairs nth_error].
    replace (2 * S j)%nat with (S (S (2 * j))) by lia.
    cbn [Nat.add nth]. rewrite IH by lia.
    replace (2 * j + 1)%nat with (S (2 * j)) by lia. reflexivity.
Qed.

Lemma last_cons_default {A : Type} (l : list A) : forall x d : A,
  last (x :: l) d = last l x.
Proof.
  induction l as [|y l IH]; intros x d; [reflexivity|].
  change (last (x :: y :: l) d) with (last (y :: l) d).
  rewrite (IH y d), (IH y x). reflexivity.
Qed.

(** ** Codes and states along the loop *)

Section Codes.

Variable upd7759_step : Z -> Z -> Z.
Variable upd7759_state_table : Z -> Z.

Local Abbreviation encode := (encode_sample upd7759_step upd7759_state_table).
Local Abbreviation body := (loop_body upd7759_step upd7759_state_table).
Local Abbreviation run := (loop upd7759_step upd7759_state_table).
Local Abbreviation codes := (nibbles upd7759_step upd7759_state_table).
Local Abbreviation rows := (row_indices upd7759_step upd7759_state_table).
Local Abbreviation len l := (Z.of_nat (length l)).

Lemma codes_range (data : list Z) : forall st,
  Forall (fun n => 0 <= n <= 15) (codes st data).
Proof.
  induction data as [|d rest IH]; intros st; cbn [nibbles].
  - constructor.
  - destruct (encode st d) as [st' sample]. constructor.
    + apply nibble_range.
    + apply IH.
Qed.

Lemma codes_length (data : list Z) : forall st,
  length (codes st data) = length data.
Proof.
  induction data as [|d rest IH]; intros st; cbn [nibbles]; [reflexivity|].
  destruct (encode st d) as [st' sample]. cbn [length]. f_equal. apply IH.
Qed.

Lemma body_state (freq : Z) (l : locals) (d : Z) :
  state (fst (body freq l d)) = fst (encode (state l) d).
Proof.
  unfold loop_body. destruct (encode (state l) d) as [st sample].
  destruct (Z.land (onesixty l) 1 =? 0), (onesixty l + 1 =? 256); reflexivity.
Qed.

(** The state the loop ends with is the last one assigned. *)
Lemma run_state (freq : Z) (data : list Z) : forall l,
  state (fst (run freq l data)) = last (rows (state l) data) (state l).
Proof.
  induction data as [|d rest IH]; intros l; [reflexivity|].
  rewrite run_cons. cbn [fst row_indices]. rewrite IH, body_state.
  symmetry. apply last_cons_default.
Qed.

Lemma codes_app (a b : list Z) : forall st,
  codes st (a ++ b) = codes st a ++ codes (last (rows st a) st) b.
Proof.
  induction a as [|d a IH]; intros st; [reflexivity|].
  cbn [app nibbles row_indices].
  destruct (encode st d) as [st' sample] eqn:E. cbn [fst app].
  rewrite IH, last_cons_default. reflexivity.
Qed.

Lemma run_parity (freq : Z) (data : list Z) : forall l,
  wf l -> onesixty (fst (run freq l data)) mod 2 = (onesixty l + len data) mod 2.
Proof.
  induction data as [|d rest IH]; intros l Hl.
  - cbn [loop fst length]. f_equal. lia.
  - rewrite run_cons. cbn [fst]. rewrite IH by (apply body_wf; exact Hl).
    cbn [length].
    destruct (Z.eq_dec (onesixty l mod 2) 0) as [Hev|Hodd].
    + rewrite body_even by assumption. cbn [fst onesixty]. f_equal. lia.
    + assert (Ho : onesixty l mod 2 = 1) by zdiv.
      pose proof (body_odd upd7759_step upd7759_state_table freq l d Hl Ho) as E.
      cbv zeta in E. rewrite E.
      destruct (Z.eqb_spec (onesixty l + 1) 256) as [E256|_]; cbn [fst onesixty].
      * zdiv.
      * f_equal. lia.
Qed.

End Codes.

(** A sample whose bits 7..10 hold [v] has working value [v]. *)
Lemma working_value_scaled (v : Z) : in_table v -> working_value (v * 128) = v.
Proof.
  unfold in_table, working_value. intros Hv.
  assert (E : to_char (Z.shiftr (to_uint16 (v * 128)) 7) = v).
  { rewrite Z.shiftr_div_pow2 by lia. unfold to_char, to_uint16.
    change (2 ^ 7) with 128. zdiv. }
  cbv zeta. rewrite E. apply clamp_id. exact Hv.
Qed.

(** ** The frequency byte in the stream *)

(** C1, as the program has it.  The trace begins with the frequency byte; a
    frequency byte of the same value stands after every 128 packed data bytes
    and nowhere else, and one is written for every 256 samples consumed: the
    counter [onesixty] counts samples, not packed bytes. *)
Theorem marker_every_256_samples
  (upd7759_step : Z -> Z -> Z) (upd7759_state_table : Z -> Z)
  (rate : Z) (data : list Z) :
  let freq := get_frequency rate in
  let out := output_upd_file upd7759_step upd7759_state_table rate data in
  hd_error out = Some (WFreq freq) /\
  marker_every 128 freq out /\
  Z.of_nat (length (freq_bytes out)) = 1 + Z.of_nat (length data) / 256.
Proof.
  cbv zeta.
  destruct (output_structure upd7759_step upd7759_state_table rate data)
    as (blocks & tail & E & Hall & Hb & Ht).
  rewrite E. split; [reflexivity|]. split.
  - intros i w Hi. destruct i as [|j].
    + cbn [nth_error] in Hi. injection Hi as <-. reflexivity.
    + cbn [nth_error] in Hi.
      replace (Z.of_nat (S j)) with (Z.of_nat j + 1) by lia.
      change (128 + 1) with 129.
      eapply framed_marker_every; [exact Hall | | exact Hi].
      rewrite Ht. zdiv.
  - destruct (framed_counts (get_frequency rate) blocks tail Hall) as (_ & Hf & _).
    cbv zeta in Hf.
    change (freq_bytes (WFreq (get_frequency rate)
              :: concat (map (block (get_frequency rate)) blocks) ++ map WData tail))
      with (get_frequency rate
              :: freq_bytes (concat (map (block (get_frequency rate)) blocks)
                             ++ map WData tail)).
    cbn [length]. rewrite Nat2Z.inj_succ, Hf, Hb. lia.
Qed.

(** C1 as stated fails: with 512 samples the second frequency byte stands at
    index 129, after 128 packed bytes, where a period of 256 packed bytes has a
    data byte; and index 257 holds a data byte. *)
Lemma marker_not_every_256_packed_bytes :
  let out := output_upd_file Tables.step Tables.state_table 8000 (repeat 0 512) in
  nth_error out 129 = Some (WFreq 0x53) /\
  nth_error out 257 = Some (WData 0) /\
  ~ marker_every 256 (get_frequency 8000) out.
Proof.
  cbv zeta. split; [vm_compute; reflexivity|]. split; [vm_compute; reflexivity|].
  intros H. specialize (H 129%nat (WFreq 0x53)).
  assert (E : nth_error
                (output_upd_file Tables.step Tables.state_table 8000 (repeat 0 512))
                129 = Some (WFreq 0x53)) by (vm_compute; reflexivity).
  specialize (H E). vm_compute in H. discriminate H.
Qed.

(** C4, as the program has it.  For [n] samples the trace holds [ceil(n/2)]
    packed data bytes and [1 + floor(n/256)] frequency bytes, so its length is
    [ceil(n/2) + 1 + floor(n/256)]. *)
Theorem output_length
  (upd7759_step : Z -> Z -> Z) (upd7759_state_table : Z -> Z)
  (rate : Z) (data : list Z) :
  let n := Z.of_nat (length data) in
  let out := output_upd_file upd7759_step upd7759_state_table rate data in
  Z.of_nat (length (data_bytes out)) = (n + 1) / 2 /\
  Z.of_nat (length (freq_bytes out)) = 1 + n / 256 /\
  Z.of_nat (length (bytes_of out)) = (n + 1) / 2 + 1 + n / 256.
Proof.
  cbv zeta.
  destruct (output_structure upd7759_step upd7759_state_table rate data)
    as (blocks & tail & E & Hall & Hb & Ht).
  destruct (framed_counts (get_frequency rate) blocks tail Hall) as (Hd & Hf & Hl).
  cbv zeta in Hd, Hf, Hl.
  unfold bytes_of. rewrite length_map, E.
  set (ws := concat (map (block (get_frequency rate)) blocks) ++ map WData tail) in *.
  change (data_bytes (WFreq (get_frequency rate) :: ws)) with (data_bytes ws).
  change (freq_bytes (WFreq (get_frequency rate) :: ws))
    with (get_frequency rate :: freq_bytes ws).
  cbn [length]. rewrite !Nat2Z.inj_succ, Hd, Hf, Hl, Hb, Ht.
  repeat split; zdiv.
Qed.

(** C4 as stated fails at [n = 256]: the program writes 130 bytes, two of them
    frequency bytes, where the formula gives 129 and one. *)
Lemma output_length_256_samples :
  let out := output_upd_file Tables.step Tables.state_table 8000 (repeat 0 256) in
  Z.of_nat (length (bytes_of out)) = 130 /\
  described_total 256 = 129 /\
  Z.of_nat (length (freq_bytes out)) = 2 /\
  described_marker_count 256 = 1 /\
  Z.of_nat (length (bytes_of out)) <> described_total 256.
Proof.
  cbv zeta. repeat split; try (vm_compute; reflexivity).
  vm_compute. discriminate.
Qed.

(** ** The encoder step *)

(** C2.  The state is clamped when an iteration begins, but the state
    assigned by [state = upd7759_state_table[sample] - state] is used as the
    row index of [upd7759_step] as it is, and it is the state the loop ends
    with.  Unless the state table is one constant of 0..15, some run of 16-bit
    samples takes it outside 0..15. *)
Theorem state_leaves_table_range
  (upd7759_step : Z -> Z -> Z) (upd7759_state_table : Z -> Z) (rate : Z) :
  (exists v, in_table v /\ ~ in_table (upd7759_state_table v)) \/
  (exists v w, in_table v /\ in_table w /\
               upd7759_state_table v < upd7759_state_table w) ->
  exists data,
    Forall is_sample data /\
    final_state upd7759_step upd7759_state_table rate data =
      last (row_indices upd7759_step upd7759_state_table 0 data) 0 /\
    ~ in_table (final_state upd7759_step upd7759_state_table rate data).
Proof.
  assert (Hone : forall v, in_table v -> ~ in_table (upd7759_state_table v) ->
    exists data,
      Forall is_sample data /\
      final_state upd7759_step upd7759_state_table rate data =
        last (row_indices upd7759_step upd7759_state_table 0 data) 0 /\
      ~ in_table (final_state upd7759_step upd7759_state_table rate data)).
  { intros v Hv Hout. exists [v * 128]. split; [|split].
    - constructor; [|constructor]. unfold in_table in Hv. unfold is_sample. lia.
    - apply (run_state upd7759_step upd7759_state_table _ _ initial_locals).
    - unfold final_state.
      rewrite (run_state upd7759_step upd7759_state_table _ _ initial_locals).
      cbn [row_indices last state initial_locals].
      rewrite encode_sample_eq. cbn [fst].
      rewrite working_value_scaled by exact Hv.
      change (clamp 0) with 0. rewrite Z.sub_0_r. exact Hout. }
  intros [(v & Hv & Hout) | (v & w & Hv & Hw & Hlt)]; [exact (Hone v Hv Hout)|].
  destruct (Z_le_dec 0 (upd7759_state_table w)) as [Hlo|Hlo];
    [destruct (Z_le_dec (upd7759_state_table w) 15) as [Hhi|Hhi]|];
    try (apply (Hone w Hw); unfold in_table; lia).
  exists [w * 128; v * 128]. split; [|split].
  - unfold in_table in Hv, Hw. repeat constructor; lia.
  - apply (run_state upd7759_step upd7759_state_table _ _ initial_locals).
  - unfold final_state.
    rewrite (run_state upd7759_step upd7759_state_table _ _ initial_locals).
    cbn [row_indices last state initial_locals].
    rewrite !encode_sample_eq. cbn [fst].
    rewrite !working_value_scaled by assumption.
    change (clamp 0) with 0. rewrite Z.sub_0_r.
    rewrite clamp_id by lia. unfold in_table. lia.
Qed.

(** With a state table whose entry 0 is -1 the first sample of value 0 already
    gives the row index -1. *)
Lemma state_leaves_table_range_witness :
  exists data,
    Forall is_sample data /\
    final_state Tables.step Tables.state_table 8000 data =
      last (row_indices Tables.step Tables.state_table 0 data) 0 /\
    ~ in_table (final_state Tables.step Tables.state_table 8000 data).
Proof.
  apply (state_leaves_table_range Tables.step Tables.state_table 8000).
  left. exists 0. split.
  - unfold in_table. lia.
  - unfold in_table. vm_compute. intros [H _]. apply H. reflexivity.
Defined.

Example row_index_of_first_zero_sample :
  row_indices Tables.step Tables.state_table 0 [0] = [-1] /\
  final_state Tables.step Tables.state_table 8000 [0] = -1.
Proof. split; reflexivity. Qed.

(** C3.  With [s] the clamped state and [v] the clamped working value of the
    sample, the iteration assigns [state = upd7759_state_table[v] - s]; the
    code it produces is the low 4 bits of [upd7759_step[state][v] - v], which
    are the low 4 bits of [output_sample]; and the next iteration starts from
    the new state. *)
Theorem state_and_code_are_differences
  (upd7759_step : Z -> Z -> Z) (upd7759_state_table : Z -> Z)
  (freq : Z) (l : locals) (d : Z) (rest : list Z) :
  let s := clamp (state l) in
  let v := working_value d in
  let new_state := upd7759_state_table v - s in
  let code := Z.land (upd7759_step new_state v - v) 0x0f in
  let l' := fst (loop_body upd7759_step upd7759_state_table freq l d) in
  in_table s /\ in_table v /\
  state l' = new_state /\
  Z.land (output_sample l') 0x0f = code /\
  nibbles upd7759_step upd7759_state_table (state l) (d :: rest) =
    code :: nibbles upd7759_step upd7759_state_table new_state rest /\
  fst (loop upd7759_step upd7759_state_table freq l (d :: rest)) =
    fst (loop upd7759_step upd7759_state_table freq l' rest).
Proof.
  cbv zeta. split; [apply clamp_range|]. split; [apply clamp_range|].
  split; [rewrite body_state, encode_sample_eq; reflexivity|].
  split; [|split].
  - unfold loop_body. rewrite encode_sample_eq.
    set (sample := to_char _).
    assert (Hcode : Z.land sample 0x0f =
              Z.land (upd7759_step (upd7759_state_table (working_value d)
                                    - clamp (state l)) (working_value d)
                      - working_value d) 0x0f).
    { subst sample. rewrite nibble_of_char, land_15_mod. reflexivity. }
    rewrite <- Hcode.
    pose proof (nibble_range sample) as Hr.
    destruct (Z.land (onesixty l) 1 =? 0), (onesixty l + 1 =? 256);
      cbn [fst output_sample]; unfold to_uint8;
      rewrite ?lor_shiftl_4 by exact Hr; rewrite !land_15_mod in *; zdiv.
  - cbn [nibbles]. rewrite encode_sample_eq.
    rewrite nibble_of_char, land_15_mod. reflexivity.
  - rewrite run_cons. reflexivity.
Qed.

(** C5, as the program has it.  The working value is the signed sample
    shifted right arithmetically by 7, narrowed to a signed 8-bit value by
    wrapping (a result below -128 gains 256, a result above 127 loses 256),
    and the narrowed value clipped into 0..15.  For the samples from -16384 to
    16383 nothing wraps, and the working value is the result of the shift
    clipped into 0..15.  It is the value both table lookups use. *)
Theorem working_value_wraps_then_clips
  (upd7759_step : Z -> Z -> Z) (upd7759_state_table : Z -> Z) (st : Z) (d : Z) :
  is_sample d ->
  let shifted := Z.shiftr d 7 in
  let narrowed :=
    if shifted <? -128 then shifted + 256
    else if 127 <? shifted then shifted - 256
    else shifted in
  working_value d =
    (if narrowed <? 0 then 0 else if 15 <? narrowed then 15 else narrowed) /\
  0 <= working_value d <= 15 /\
  (-16384 <= d <= 16383 -> working_value d = described_working_value d) /\
  fst (encode_sample upd7759_step upd7759_state_table st d) =
    upd7759_state_table (working_value d) - clamp st.
Proof.
  unfold is_sample. intros Hd. cbv zeta.
  assert (Hs : Z.shiftr d 7 = d / 128)
    by (rewrite Z.shiftr_div_pow2 by lia; reflexivity).
  assert (E : to_char (Z.shiftr (to_uint16 d) 7) =
              if Z.shiftr d 7 <? -128 then Z.shiftr d 7 + 256
              else if 127 <? Z.shiftr d 7 then Z.shiftr d 7 - 256
              else Z.shiftr d 7).
  { rewrite Hs, Z.shiftr_div_pow2 by lia. unfold to_char, to_uint16.
    change (2 ^ 7) with 128.
    destruct (Z.ltb_spec (d / 128) (-128)); [zdiv|].
    destruct (Z.ltb_spec 127 (d / 128)); zdiv. }
  assert (Hw : working_value d =
               clamp (if Z.shiftr d 7 <? -128 then Z.shiftr d 7 + 256
                      else if 127 <? Z.shiftr d 7 then Z.shiftr d 7 - 256
                      else Z.shiftr d 7)).
  { unfold working_value. cbv zeta. rewrite E. reflexivity. }
  split; [|split; [|split]].
  - rewrite Hw. unfold clamp. rewrite Z.gtb_ltb. reflexivity.
  - apply clamp_range.
  - intros Hin. rewrite Hw. unfold described_working_value. cbv zeta.
    destruct (Z.ltb_spec (Z.shiftr d 7) (-128)); [exfalso; rewrite Hs in *; zdiv|].
    destruct (Z.ltb_spec 127 (Z.shiftr d 7)); [exfalso; rewrite Hs in *; zdiv|].
    unfold clamp. rewrite Z.gtb_ltb. reflexivity.
  - rewrite encode_sample_eq. reflexivity.
Qed.

Lemma working_value_wraps_then_clips_witness :
  let shifted := Z.shiftr 32767 7 in
  let narrowed :=
    if shifted <? -128 then shifted + 256
    else if 127 <? shifted then shifted - 256
    else shifted in
  working_value 32767 =
    (if narrowed <? 0 then 0 else if 15 <? narrowed then 15 else narrowed) /\
  0 <= working_value 32767 <= 15 /\
  (-16384 <= 32767 <= 16383 ->
   working_value 32767 = described_working_value 32767) /\
  fst (encode_sample Tables.step Tables.state_table 3 32767) =
    Tables.state_table (working_value 32767) - clamp 3.
Proof.
  apply (working_value_wraps_then_clips Tables.step Tables.state_table 3 32767).
  unfold is_sample. lia.
Defined.

(** C5 as stated fails: the narrowing wraps.  The sample 32767 shifts to 255,
    which clipped is 15, and has the working value 0; the sample -32128 shifts
    to -251, which clipped is 0, and has the working value 5. *)
Lemma working_value_wraps_outside_8_bits :
  Z.shiftr 32767 7 = 255 /\
  described_working_value 32767 = 15 /\
  working_value 32767 = 0 /\
  Z.shiftr (-32128) 7 = -251 /\
  described_working_value (-32128) = 0 /\
  working_value (-32128) = 5 /\
  working_value 32767 <> described_working_value 32767 /\
  working_value (-32128) <> described_working_value (-32128).
Proof.
  repeat split; try reflexivity; vm_compute; discriminate.
Qed.

(** ** The program *)

(** C6.  With a sample rate other than 5000, 6000 and 8000 [read_pcm_file]
    ends the process before [output_upd_file] runs: the exit status is
    [EXIT_FAILURE] and nothing is written.  Hence no run of [main] writes the
    frequency byte [NONE]: every frequency byte written is 0x5F, 0x59 or
    0x53. *)
Theorem unsupported_rate_writes_nothing
  (upd7759_step : Z -> Z -> Z) (upd7759_state_table : Z -> Z)
  (info : SF_INFO) (data : list Z) (output_opens : bool) :
  samplerate info <> 5000 -> samplerate info <> 6000 -> samplerate info <> 8000 ->
  main upd7759_step upd7759_state_table (Some (info, data)) output_opens
    = (EXIT_FAILURE, []) /\
  (forall input' opens' b,
     In (WFreq b) (snd (main upd7759_step upd7759_state_table input' opens')) ->
     b <> NONE /\ (b = FIVEKHZ \/ b = SIXKHZ \/ b = EIGHTKHZ)).
Proof.
  intros H5 H6 H8. split.
  - unfold main, read_pcm_file.
    destruct (Z.eqb_spec (samplerate info) 5000); [contradiction|].
    destruct (Z.eqb_spec (samplerate info) 6000); [contradiction|].
    destruct (Z.eqb_spec (samplerate info) 8000); [contradiction|].
    reflexivity.
  - intros input' opens' b Hin.
    assert (Hb : b = FIVEKHZ \/ b = SIXKHZ \/ b = EIGHTKHZ).
    { unfold main in Hin. destruct input' as [[info' data']|]; [|contradiction].
      unfold read_pcm_file in Hin.
      destruct (Z.eqb_spec (samplerate info') 5000) as [E5|N5];
        [| destruct (Z.eqb_spec (samplerate info') 6000) as [E6|N6];
           [| destruct (Z.eqb_spec (samplerate info') 8000) as [E8|N8]]];
        cbn [negb andb] in Hin;
        try (destruct (negb (channels info' =? 1)); [contradiction|];
             destruct (Z.land (format info') SF_FORMAT_PCM_16 =? 0); [contradiction|];
             destruct opens'; [|contradiction];
             cbn [snd] in Hin; apply output_freq_values in Hin; subst b).
      + rewrite E5. left. reflexivity.
      + rewrite E6. right. left. reflexivity.
      + rewrite E8. right. right. reflexivity.
      + contradiction. }
    split; [|exact Hb].
    destruct Hb as [-> | [-> | ->]]; discriminate.
Qed.

Lemma unsupported_rate_writes_nothing_witness :
  main Tables.step Tables.state_table (Some (mkInfo 11025 1 2, [0; 128; -128])) true
    = (EXIT_FAILURE, []) /\
  (forall input' opens' b,
     In (WFreq b) (snd (main Tables.step Tables.state_table input' opens')) ->
     b <> NONE /\ (b = FIVEKHZ \/ b = SIXKHZ \/ b = EIGHTKHZ)).
Proof.
  apply (unsupported_rate_writes_nothing Tables.step Tables.state_table
           (mkInfo 11025 1 2) [0; 128; -128] true); simpl; lia.
Defined.

(** C7.  For each of the three rates the first write is the frequency byte of
    that rate, 0x5F, 0x59 or 0x53, whatever the samples are; with no samples it
    is the whole output. *)
Theorem first_byte_is_frequency
  (upd7759_step : Z -> Z -> Z) (upd7759_state_table : Z -> Z) (data : list Z) :
  let output := output_upd_file upd7759_step upd7759_state_table in
  (hd_error (output 5000 data) = Some (WFreq 0x5F) /\
   hd_error (bytes_of (output 5000 data)) = Some 0x5F /\
   output 5000 [] = [WFreq 0x5F]) /\
  (hd_error (output 6000 data) = Some (WFreq 0x59) /\
   hd_error (bytes_of (output 6000 data)) = Some 0x59 /\
   output 6000 [] = [WFreq 0x59]) /\
  (hd_error (output 8000 data) = Some (WFreq 0x53) /\
   hd_error (bytes_of (output 8000 data)) = Some 0x53 /\
   output 8000 [] = [WFreq 0x53]).
Proof.
  cbv zeta. rewrite !output_eq. repeat split.
Qed.

(** C8.  The [j]-th packed data byte is [(p << 4) | q], where [p] is the code
    of sample [2j], held in [output_sample], and [q] the code of sample
    [2j+1]: [p] is its high half and [q] its low half. *)
Theorem pair_is_packed_high_then_low
  (upd7759_step : Z -> Z -> Z) (upd7759_state_table : Z -> Z)
  (rate : Z) (data : list Z) (j : nat) :
  (2 * j + 1 < length data)%nat ->
  let codes := nibbles upd7759_step upd7759_state_table 0 data in
  let p := nth (2 * j) codes 0 in
  let q := nth (2 * j + 1) codes 0 in
  let b := Z.lor (Z.shiftl p 4) q in
  nth_error (data_bytes (output_upd_file upd7759_step upd7759_state_table rate data)) j
    = Some b /\
  Z.shiftr b 4 = p /\ Z.land b 0x0f = q /\ 0 <= b <= 255.
Proof.
  intros Hlt. cbv zeta.
  set (codes := nibbles upd7759_step upd7759_state_table 0 data).
  assert (Hlen : length codes = length data) by apply codes_length.
  assert (Hrange : forall i, (i < length codes)%nat -> 0 <= nth i codes 0 <= 15).
  { intros i Hi.
    pose proof (codes_range upd7759_step upd7759_state_table data 0) as Hall.
    rewrite Forall_forall in Hall. apply Hall, nth_In, Hi. }
  split.
  - rewrite output_data_bytes. apply pack_pairs_nth. fold codes. lia.
  - assert (Hp : 0 <= nth (2 * j) codes 0 <= 15) by (apply Hrange; lia).
    assert (Hq : 0 <= nth (2 * j + 1) codes 0 <= 15) by (apply Hrange; lia).
    destruct (packed_byte_halves _ _ Hp Hq) as (Hb & Hhi & Hlo).
    cbv zeta in Hb, Hhi, Hlo. repeat split; try assumption;
      unfold to_uint8 in Hb; rewrite <- Hb; zdiv.
Qed.

Lemma pair_is_packed_high_then_low_witness :
  let data := [128; 256; 384; 1920; -32768; 32767] in
  let codes := nibbles Tables.step Tables.state_table 0 data in
  let p := nth (2 * 1) codes 0 in
  let q := nth (2 * 1 + 1) codes 0 in
  let b := Z.lor (Z.shiftl p 4) q in
  nth_error (data_bytes (output_upd_file Tables.step Tables.state_table 8000 data)) 1
    = Some b /\
  Z.shiftr b 4 = p /\ Z.land b 0x0f = q /\ 0 <= b <= 255.
Proof.
  apply (pair_is_packed_high_then_low Tables.step Tables.state_table 8000
           [128; 256; 384; 1920; -32768; 32767] 1%nat).
  simpl. lia.
Defined.

(** C9.  With an odd number of samples the output is the output for all
    samples but the last, followed by one more data byte: the code of the last
    sample in the high half, 0 in the low half. *)
Theorem odd_count_purges_last_code
  (upd7759_step : Z -> Z -> Z) (upd7759_state_table : Z -> Z)
  (rate : Z) (data : list Z) :
  Z.of_nat (length data) mod 2 = 1 ->
  let output := output_upd_file upd7759_step upd7759_state_table rate in
  let code := last (nibbles upd7759_step upd7759_state_table 0 data) 0 in
  let b := Z.shiftl code 4 in
  output data = output (removelast data) ++ [WData b] /\
  Z.shiftr b 4 = code /\ Z.land b 0x0f = 0 /\ 0 <= b <= 255.
Proof.
  intros Hodd. cbv zeta.
  assert (Hne : data <> []) by (intros ->; discriminate Hodd).
  pose proof (app_removelast_last 0 Hne) as Hd.
  set (front := removelast data) in *. set (d := last data 0) in *.
  assert (Hfront : Z.of_nat (length front) mod 2 = 0).
  { rewrite Hd, length_app in Hodd. cbn [length] in Hodd. revert Hodd. zdiv. }
  set (freq := get_frequency rate).
  pose proof (run_wf upd7759_step upd7759_state_table freq initial_locals front
                wf_initial) as Hwf.
  pose proof (run_parity upd7759_step upd7759_state_table freq front initial_locals
                wf_initial) as Hpar.
  cbn [onesixty initial_locals] in Hpar. rewrite Z.add_0_l, Hfront in Hpar.
  set (l1 := fst (loop upd7759_step upd7759_state_table freq initial_locals front)) in *.
  (* the code of the last sample *)
  assert (Hcode : last (nibbles upd7759_step upd7759_state_table 0 data) 0 =
                  Z.land (snd (encode_sample upd7759_step upd7759_state_table
                                 (state l1) d)) 0x0f).
  { rewrite Hd, codes_app.
    pose proof (run_state upd7759_step upd7759_state_table freq front initial_locals)
      as Hs.
    fold l1 in Hs. change (state initial_locals) with 0 in Hs. rewrite <- Hs.
    cbn [nibbles].
    destruct (encode_sample upd7759_step upd7759_state_table (state l1) d)
      as [st sample].
    cbn [snd]. apply last_last. }
  rewrite Hcode.
  set (code := Z.land (snd (encode_sample upd7759_step upd7759_state_table
                              (state l1) d)) 0x0f).
  assert (Hr : 0 <= code <= 15) by apply nibble_range.
  destruct (purged_byte_halves code Hr) as (Hb & Hhi & Hlo). cbv zeta in Hb, Hhi, Hlo.
  split; [|repeat split; try assumption; unfold to_uint8 in Hb; rewrite <- Hb; zdiv].
  rewrite Hd at 1. rewrite !output_eq. fold freq.
  rewrite run_app. cbn [fst snd]. fold l1.
  change (loop upd7759_step upd7759_state_table freq l1 [d])
    with (let '(l2, w1) := loop_body upd7759_step upd7759_state_table freq l1 d in
          (l2, w1 ++ [])).
  rewrite body_even by assumption. cbn [fst snd app]. rewrite app_nil_r.
  unfold purge. cbn [onesixty output_sample]. rewrite !land_1_mod, Hpar.
  replace ((onesixty l1 + 1) mod 2) with 1 by (revert Hpar; zdiv).
  cbn [Z.eqb]. fold code. rewrite Hb, app_nil_r. reflexivity.
Qed.

Lemma odd_count_purges_last_code_witness :
  let data := [128; 256; 384] in
  let output := output_upd_file Tables.step Tables.state_table 6000 in
  let code := last (nibbles Tables.step Tables.state_table 0 data) 0 in
  let b := Z.shiftl code 4 in
  output data = output (removelast data) ++ [WData b] /\
  Z.shiftr b 4 = code /\ Z.land b 0x0f = 0 /\ 0 <= b <= 255.
Proof.
  apply (odd_count_purges_last_code Tables.step Tables.state_table 6000
           [128; 256; 384]).
  reflexivity.
Defined.

(** C10.  When the number of samples is a positive multiple of 256 the output
    ends with the last packed data byte followed by the frequency byte. *)
Theorem whole_blocks_end_with_frequency
  (upd7759_step : Z -> Z -> Z) (upd7759_state_table : Z -> Z)
  (rate : Z) (data : list Z) (k : Z) :
  0 < k -> Z.of_nat (length data) = 256 * k ->
  let out := output_upd_file upd7759_step upd7759_state_table rate data in
  let b := last (pack_pairs (nibbles upd7759_step upd7759_state_table 0 data)) 0 in
  exists ws,
    out = ws ++ [WData b; WFreq (get_frequency rate)] /\
    last (bytes_of out) 0 = get_frequency rate.
Proof.
  intros Hk Hlen. cbv zeta.
  pose proof (output_data_bytes upd7759_step upd7759_state_table rate data) as Hdata.
  destruct (output_structure upd7759_step upd7759_state_table rate data)
    as (blocks & tail & E & Hall & Hb & Ht).
  assert (Htail : tail = []).
  { destruct tail; [reflexivity|]. cbn [length] in Ht. revert Ht. rewrite Hlen. zdiv. }
  subst tail. cbn [map] in E. rewrite app_nil_r in E.
  destruct (exists_last (l := blocks)) as (blocks' & bs & ->).
  { intros ->. cbn [length] in Hb. revert Hb. rewrite Hlen. zdiv. }
  apply Forall_app in Hall. destruct Hall as [_ Hbs].
  apply Forall_inv in Hbs.
  destruct (exists_last (l := bs)) as (bs' & b & ->).
  { intros ->. discriminate Hbs. }
  rewrite map_app, concat_app in E. cbn [map concat] in E.
  unfold block at 2 in E. rewrite map_app, app_nil_r in E. cbn [map] in E.
  set (front := WFreq (get_frequency rate)
                  :: concat (map (block (get_frequency rate)) blocks')
                  ++ map WData bs').
  assert (E' : output_upd_file upd7759_step upd7759_state_table rate data =
               front ++ [WData b; WFreq (get_frequency rate)]).
  { rewrite E. subst front. cbn [app]. f_equal.
    rewrite <- !app_assoc. reflexivity. }
  rewrite E' in Hdata.
  rewrite data_bytes_app in Hdata.
  change (data_bytes [WData b; WFreq (get_frequency rate)]) with [b] in Hdata.
  rewrite <- Hdata, last_last.
  exists front. split; [exact E'|].
  rewrite E'. unfold bytes_of. rewrite map_app. cbn [map byte_of].
  replace (map byte_of front ++ [b; get_frequency rate])
    with ((map byte_of front ++ [b]) ++ [get_frequency rate])
    by (rewrite <- app_assoc; reflexivity).
  apply last_last.
Qed.

Lemma whole_blocks_end_with_frequency_witness :
  let data := repeat 128 256 in
  let out := output_upd_file Tables.step Tables.state_table 5000 data in
  let b := last (pack_pairs (nibbles Tables.step Tables.state_table 0 data)) 0 in
  exists ws,
    out = ws ++ [WData b; WFreq (get_frequency 5000)] /\
    last (bytes_of out) 0 = get_frequency 5000.
Proof.
  apply (whole_blocks_end_with_frequency Tables.step Tables.state_table 5000
           (repeat 128 256) 1).
  - lia.
  - reflexivity.
Defined.

(** * Further properties of the program *)

(** ** [read_pcm_file] and [main] *)

Lemma land_2_testbit (f : Z) :
  Z.land f SF_FORMAT_PCM_16 = if Z.testbit f 1 then 2 else 0.
Proof.
  apply Z.bits_inj'. intros i Hi. rewrite Z.land_spec.
  change SF_FORMAT_PCM_16 with (2 ^ 1). rewrite Z.pow2_bits_eqb by lia.
  destruct (Z.eqb_spec 1 i) as [<-|Hne].
  - rewrite andb_true_r. destruct (Z.testbit f 1); reflexivity.
  - rewrite andb_false_r. destruct (Z.testbit f 1).
    + change 2 with (2 ^ 1). rewrite Z.pow2_bits_eqb by lia.
      symmetry. apply Z.eqb_neq. exact Hne.
    + rewrite Z.bits_0. reflexivity.
Qed.

(** X1.  [read_pcm_file] lets the input through exactly when the rate is
    5000, 6000 or 8000, there is one channel and bit 1 of the format word is
    set; the rate is tested first, then the channels, then the format, and
    each failure has its own message. *)
Theorem read_pcm_file_outcomes (info : SF_INFO) :
  let rate_ok :=
    samplerate info = 5000 \/ samplerate info = 6000 \/ samplerate info = 8000 in
  (read_pcm_file info = inr tt <->
     rate_ok /\ channels info = 1 /\ Z.testbit (format info) 1 = true) /\
  (read_pcm_file info
     = inl "Only sample rates of 5khz, 6khz, or 8kz are supported."%string <->
     ~ rate_ok) /\
  (read_pcm_file info = inl "Only single channel audio is supported."%string <->
     rate_ok /\ channels info <> 1) /\
  (read_pcm_file info = inl "Audio data must be 16-bit PCM."%string <->
     rate_ok /\ channels info = 1 /\ Z.testbit (format info) 1 = false).
Proof.
  cbv zeta. unfold read_pcm_file. rewrite land_2_testbit.
  destruct (Z.eqb_spec (samplerate info) 5000) as [E5|N5];
  destruct (Z.eqb_spec (samplerate info) 6000) as [E6|N6];
  destruct (Z.eqb_spec (samplerate info) 8000) as [E8|N8];
  destruct (Z.eqb_spec (channels info) 1) as [Ec|Nc];
  destruct (Z.testbit (format info) 1);
  cbn [negb andb Z.eqb];
  repeat split; intros; try discriminate; try tauto;
  try (exfalso; intuition (try lia; try discriminate)).
Qed.

(** ** The quantiser *)

(** X3.  Over the 16-bit samples the working value is: 0 from -16384 to -1
    and from 16384 up; the sample divided by 128 from 0 to 2047; 15 from 2048
    to 16383; and the sign bit is dropped, so that the samples below -16384
    repeat the values of the samples 32768 above them. *)
Theorem working_value_by_range (d : Z) :
  is_sample d ->
  working_value d =
    if d <? -30720 then (d + 32768) / 128
    else if d <? -16384 then 15
    else if d <? 0 then 0
    else if d <? 2048 then d / 128
    else if d <? 16384 then 15
    else 0.
Proof.
  unfold is_sample, working_value, clamp, to_char, to_uint16. intros Hd. cbv zeta.
  rewrite Z.shiftr_div_pow2 by lia. change (2 ^ 7) with 128.
  set (x := (d mod 65536 / 128 + 128) mod 256 - 128).
  assert (Hx : x = if d <? -30720 then (d + 32768) / 128
                   else if d <? -16384 then (d + 32768) / 128
                   else if d <? 0 then d / 128
                   else if d <? 16384 then d / 128
                   else d / 128 - 256).
  { subst x.
    destruct (Z.ltb_spec d (-30720)); [zdiv|].
    destruct (Z.ltb_spec d (-16384)); [zdiv|].
    destruct (Z.ltb_spec d 0); [zdiv|].
    destruct (Z.ltb_spec d 16384); zdiv. }
  rewrite Z.gtb_ltb.
  destruct (Z.ltb_spec d (-30720)).
  { rewrite Hx. destruct (Z.ltb_spec ((d + 32768) / 128) 0); [exfalso; zdiv|].
    destruct (Z.ltb_spec 15 ((d + 32768) / 128)); [exfalso; zdiv | reflexivity]. }
  destruct (Z.ltb_spec d (-16384)).
  { rewrite Hx. destruct (Z.ltb_spec ((d + 32768) / 128) 0); [exfalso; zdiv|].
    destruct (Z.ltb_spec 15 ((d + 32768) / 128)); [reflexivity | exfalso; zdiv]. }
  destruct (Z.ltb_spec d 0).
  { rewrite Hx. destruct (Z.ltb_spec (d / 128) 0); [reflexivity | exfalso; zdiv]. }
  destruct (Z.ltb_spec d 2048).
  { destruct (Z.ltb_spec d 16384); [|lia]. rewrite Hx.
    destruct (Z.ltb_spec (d / 128) 0); [exfalso; zdiv|].
    destruct (Z.ltb_spec 15 (d / 128)); [exfalso; zdiv | reflexivity]. }
  destruct (Z.ltb_spec d 16384).
  { rewrite Hx. destruct (Z.ltb_spec (d / 128) 0); [exfalso; zdiv|].
    destruct (Z.ltb_spec 15 (d / 128)); [reflexivity | exfalso; zdiv]. }
  rewrite Hx. destruct (Z.ltb_spec (d / 128 - 256) 0); [reflexivity | exfalso; zdiv].
Qed.

Lemma working_value_by_range_witness :
  working_value (-31000) =
    if -31000 <? -30720 then (-31000 + 32768) / 128
    else if -31000 <? -16384 then 15
    else if -31000 <? 0 then 0
    else if -31000 <? 2048 then -31000 / 128
    else if -31000 <? 16384 then 15
    else 0.
Proof.
  apply (working_value_by_range (-31000)). unfold is_sample. lia.
Defined.

Lemma narrowed_shift_bits (d : Z) :
  to_char (Z.shiftr (to_uint16 d) 7) = to_char ((d / 128) mod 256).
Proof.
  rewrite Z.shiftr_div_pow2 by lia. unfold to_char, to_uint16.
  change (2 ^ 7) with 128. zdiv.
Qed.

Lemma encode_sample_same_bits
  (upd7759_step : Z -> Z -> Z) (upd7759_state_table : Z -> Z) (st d d' : Z) :
  same_bits_7_to_14 d d' ->
  encode_sample upd7759_step upd7759_state_table st d =
  encode_sample upd7759_step upd7759_state_table st d'.
Proof.
  unfold same_bits_7_to_14. intros H.
  rewrite !encode_sample_eq. unfold working_value. cbv zeta.
  rewrite !narrowed_shift_bits, H. reflexivity.
Qed.

(** X4.  Only bits 7 to 14 of a sample reach the output: two buffers whose
    samples agree on these bits give the same stream, so the low 7 bits and
    the sign bit of every sample are ignored. *)
Theorem output_reads_bits_7_to_14
  (upd7759_step : Z -> Z -> Z) (upd7759_state_table : Z -> Z)
  (rate : Z) (data data' : list Z) :
  Forall2 same_bits_7_to_14 data data' ->
  output_upd_file upd7759_step upd7759_state_table rate data =
  output_upd_file upd7759_step upd7759_state_table rate data'.
Proof.
  intros H. unfold output_upd_file.
  assert (E : forall l,
            loop upd7759_step upd7759_state_table (get_frequency rate) l data =
            loop upd7759_step upd7759_state_table (get_frequency rate) l data').
  { induction H as [|d d' rest rest' Hd _ IH]; intros l; [reflexivity|].
    cbn [loop]. unfold loop_body.
    rewrite (encode_sample_same_bits _ _ _ d d' Hd).
    destruct (encode_sample upd7759_step upd7759_state_table (state l) d')
      as [st sample].
    destruct (Z.land (onesixty l) 1 =? 0), (onesixty l + 1 =? 256);
      rewrite IH; reflexivity. }
  rewrite E. reflexivity.
Qed.

Lemma output_reads_bits_7_to_14_witness :
  output_upd_file Tables.step Tables.state_table 8000 [0; 300; 32767] =
  output_upd_file Tables.step Tables.state_table 8000 [-32768; 383; -1].
Proof.
  apply (output_reads_bits_7_to_14 Tables.step Tables.state_table 8000
           [0; 300; 32767] [-32768; 383; -1]).
  repeat constructor.
Defined.

(** ** The bytes of the stream *)

(** X5.  The conversions to [uint8_t] never cut a bit off.  After any run of
    samples, [sample & 0x0f] is below 16; and on an odd count, when a pair is
    completed or purged, [output_sample] holds one code below 16, so that
    [(output_sample << 4) | (sample & 0x0f)] and [output_sample << 4] are
    below 256 before they are converted, with the held code as their high
    half. *)
Theorem uint8_conversions_keep_all_bits
  (upd7759_step : Z -> Z -> Z) (upd7759_state_table : Z -> Z)
  (freq : Z) (seen : list Z) (d : Z) :
  let l := fst (loop upd7759_step upd7759_state_table freq initial_locals seen) in
  let code :=
    Z.land (snd (encode_sample upd7759_step upd7759_state_table (state l) d)) 0x0f in
  let pair := Z.lor (Z.shiftl (output_sample l) 4) code in
  let purged := Z.shiftl (output_sample l) 4 in
  to_uint8 code = code /\
  (Z.land (onesixty l) 1 <> 0 ->
   0 <= output_sample l <= 15 /\
   to_uint8 pair = pair /\ Z.shiftr pair 4 = output_sample l /\
   to_uint8 purged = purged /\ Z.shiftr purged 4 = output_sample l).
Proof.
  cbv zeta.
  set (l := fst (loop upd7759_step upd7759_state_table freq initial_locals seen)).
  set (sample := snd (encode_sample upd7759_step upd7759_state_table (state l) d)).
  pose proof (nibble_range sample) as Hcode.
  pose proof (run_wf upd7759_step upd7759_state_table freq initial_locals seen
                wf_initial) as Hwf.
  fold l in Hwf. destruct Hwf as [Hc Hp].
  split.
  - unfold to_uint8. apply Z.mod_small. lia.
  - rewrite land_1_mod. intros Hodd.
    assert (Ho : onesixty l mod 2 = 1) by (revert Hodd; zdiv).
    specialize (Hp Ho).
    destruct (packed_byte_halves (output_sample l) (Z.land sample 0x0f) Hp Hcode)
      as (Hb & Hhi & _).
    destruct (purged_byte_halves (output_sample l) Hp) as (Hb' & Hhi' & _).
    cbv zeta in Hb, Hhi, Hb', Hhi'.
    repeat split; assumption || lia.
Qed.

Example odd_count_after_three_samples :
  Z.land (onesixty (fst (loop Tables.step Tables.state_table 0x53 initial_locals
                           [128; 256; 384]))) 1 <> 0.
Proof. vm_compute. discriminate. Qed.

(** X6.  A buffer with an even number of samples gives a prefix of the stream
    of every buffer that extends it: what follows is what the loop and the
    purge write for the added samples, started from the locals the prefix
    leaves. *)
Theorem output_of_even_prefix
  (upd7759_step : Z -> Z -> Z) (upd7759_state_table : Z -> Z)
  (rate : Z) (a b : list Z) :
  Z.of_nat (length a) mod 2 = 0 ->
  let freq := get_frequency rate in
  let l := fst (loop upd7759_step upd7759_state_table freq initial_locals a) in
  let continued := loop upd7759_step upd7759_state_table freq l b in
  output_upd_file upd7759_step upd7759_state_table rate (a ++ b) =
    output_upd_file upd7759_step upd7759_state_table rate a
      ++ snd continued ++ purge (fst continued).
Proof.
  intros Hev. cbv zeta. rewrite !output_eq, run_app. cbn [fst snd].
  pose proof (run_parity upd7759_step upd7759_state_table (get_frequency rate)
                a initial_locals wf_initial) as Hpar.
  cbn [onesixty initial_locals] in Hpar. rewrite Z.add_0_l, Hev in Hpar.
  unfold purge at 2. rewrite land_1_mod, Hpar. cbn [Z.eqb].
  rewrite app_nil_r. cbn [app]. rewrite <- app_assoc. reflexivity.
Qed.

Lemma output_of_even_prefix_witness :
  let freq := get_frequency 5000 in
  let l := fst (loop Tables.step Tables.state_table freq initial_locals [128; 640]) in
  let continued := loop Tables.step Tables.state_table freq l [256; 0; 1920] in
  output_upd_file Tables.step Tables.state_table 5000 ([128; 640] ++ [256; 0; 1920]) =
    output_upd_file Tables.step Tables.state_table 5000 [128; 640]
      ++ snd continued ++ purge (fst continued).
Proof.
  apply (output_of_even_prefix Tables.step Tables.state_table 5000
           [128; 640] [256; 0; 1920]).
  reflexivity.
Defined.

(** X7.  The sample rate reaches the stream only as the value of the
    frequency bytes: for another rate the stream is the same with that value
    replaced, the data bytes and the places of the frequency bytes are
    unchanged. *)
Theorem rate_only_sets_frequency_bytes
  (upd7759_step : Z -> Z -> Z) (upd7759_state_table : Z -> Z)
  (rate rate' : Z) (data : list Z) :
  output_upd_file upd7759_step upd7759_state_table rate' data =
    map (with_freq (get_frequency rate'))
        (output_upd_file upd7759_step upd7759_state_table rate data).
Proof.
  set (f := get_frequency rate). set (f' := get_frequency rate').
  assert (E : forall l,
            loop upd7759_step upd7759_state_table f' l data =
            (fst (loop upd7759_step upd7759_state_table f l data),
             map (with_freq f') (snd (loop upd7759_step upd7759_state_table f l data)))).
  { induction data as [|d rest IH]; intros l; [reflexivity|].
    rewrite (run_cons _ _ f), (run_cons _ _ f'). cbn [fst snd].
    assert (Eb : loop_body upd7759_step upd7759_state_table f' l d =
                 (fst (loop_body upd7759_step upd7759_state_table f l d),
                  map (with_freq f')
                      (snd (loop_body upd7759_step upd7759_state_table f l d)))).
    { unfold loop_body.
      destruct (encode_sample upd7759_step upd7759_state_table (state l) d)
        as [st sample].
      destruct (Z.land (onesixty l) 1 =? 0), (onesixty l + 1 =? 256); reflexivity. }
    rewrite Eb. cbn [fst snd]. rewrite IH. cbn [fst snd].
    rewrite map_app. reflexivity. }
  rewrite !output_eq. fold f f'. rewrite E. cbn [fst snd map with_freq].
  rewrite map_app. f_equal. f_equal.
  unfold purge. destruct (Z.land _ 1 =? 0); reflexivity.
Qed.

(** ** Reading the codes back from the stream *)

Lemma deframe_from_exact (bs : list Z) : forall (k : nat) (rest : list Z),
  length bs = k -> deframe_from k (bs ++ rest) = bs ++ deframe_from 0 rest.
Proof.
  induction bs as [|b bs IH]; intros k rest Hk.
  - cbn [length] in Hk. subst k. reflexivity.
  - cbn [length] in Hk. subst k. cbn [app deframe_from]. f_equal. apply IH. reflexivity.
Qed.

Lemma deframe_from_short (bs : list Z) : forall k : nat,
  (length bs <= k)%nat -> deframe_from k bs = bs.
Proof.
  induction bs as [|b bs IH]; intros k Hk; [reflexivity|].
  cbn [length] in Hk. destruct k as [|k]; [lia|].
  cbn [deframe_from]. f_equal. apply IH. lia.
Qed.

Lemma bytes_of_data (bs : list Z) : bytes_of (map WData bs) = bs.
Proof.
  unfold bytes_of. rewrite map_map. cbn [byte_of]. apply map_id.
Qed.

Lemma deframe_blocks (freq : Z) (blocks : list (list Z)) (tail : list Z) :
  Forall (fun bs => Z.of_nat (length bs) = 128) blocks ->
  Z.of_nat (length tail) <= 128 ->
  let ws := concat (map (block freq) blocks) ++ map WData tail in
  deframe_from 128 (bytes_of ws) = data_bytes ws.
Proof.
  intros Hall Htail. cbv zeta. induction Hall as [|bs blocks Hbs _ IH].
  - cbn [map concat app]. rewrite bytes_of_data, data_bytes_data.
    apply deframe_from_short. lia.
  - cbn [map concat]. rewrite <- app_assoc.
    set (rest := concat (map (block freq) blocks) ++ map WData tail) in *.
    rewrite data_bytes_app, data_bytes_block.
    unfold bytes_of, block. rewrite !map_app, <- app_assoc.
    fold (bytes_of (map WData bs)). rewrite bytes_of_data.
    rewrite deframe_from_exact by lia.
    cbn [map byte_of app deframe_from]. f_equal. exact IH.
Qed.

Lemma unpack_pack_pairs (ns : list Z) :
  Forall (fun n => 0 <= n <= 15) ns ->
  unpack_pairs (pack_pairs ns) =
    ns ++ (if Z.of_nat (length ns) mod 2 =? 0 then [] else [0]).
Proof.
  assert (H : forall n (l : list Z), (length l <= n)%nat ->
            Forall (fun n => 0 <= n <= 15) l ->
            unpack_pairs (pack_pairs l) =
              l ++ (if Z.of_nat (length l) mod 2 =? 0 then [] else [0])).
  { induction n as [|n IH]; intros l Hl Hall.
    - destruct l; [reflexivity | cbn [length] in Hl; lia].
    - destruct l as [|a [|b rest]].
      + reflexivity.
      + apply Forall_inv in Hall. cbv beta in Hall.
        destruct (purged_byte_halves a Hall) as (_ & Hhi & Hlo).
        cbv zeta in Hhi, Hlo. cbn [pack_pairs unpack_pairs].
        rewrite Hhi, Hlo. reflexivity.
      + pose proof (Forall_inv Hall) as Ha. apply Forall_inv_tail in Hall.
        pose proof (Forall_inv Hall) as Hb. apply Forall_inv_tail in Hall.
        cbv beta in Ha, Hb.
        destruct (packed_byte_halves a b Ha Hb) as (_ & Hhi & Hlo).
        cbv zeta in Hhi, Hlo. cbn [pack_pairs unpack_pairs].
        rewrite Hhi, Hlo, IH by (cbn [length] in Hl; try lia; exact Hall).
        cbn [app length]. do 2 f_equal.
        replace (Z.of_nat (S (S (length rest))) mod 2)
          with (Z.of_nat (length rest) mod 2) by zdiv.
        reflexivity. }
  apply (H (length ns)). lia.
Qed.

(** X8.  Framing and packing lose nothing: dropping every 129th byte of the
    stream and splitting the remaining bytes into halves gives back the
    4-bit codes of the samples in order, followed by one 0 when the number of
    samples is odd. *)
Theorem codes_can_be_read_back
  (upd7759_step : Z -> Z -> Z) (upd7759_state_table : Z -> Z)
  (rate : Z) (data : list Z) :
  unpack_pairs
    (deframe (bytes_of (output_upd_file upd7759_step upd7759_state_table rate data)))
  = nibbles upd7759_step upd7759_state_table 0 data
      ++ (if Z.of_nat (length data) mod 2 =? 0 then [] else [0]).
Proof.
  pose proof (output_data_bytes upd7759_step upd7759_state_table rate data) as Hdata.
  destruct (output_structure upd7759_step upd7759_state_table rate data)
    as (blocks & tail & E & Hall & Hb & Ht).
  assert (Hdef : deframe (bytes_of (output_upd_file upd7759_step
                                      upd7759_state_table rate data))
                 = data_bytes (output_upd_file upd7759_step
                                 upd7759_state_table rate data)).
  { rewrite E. unfold deframe.
    change (bytes_of (WFreq (get_frequency rate)
              :: concat (map (block (get_frequency rate)) blocks) ++ map WData tail))
      with (get_frequency rate
              :: bytes_of (concat (map (block (get_frequency rate)) blocks)
                           ++ map WData tail)).
    cbn [deframe_from].
    change (data_bytes (WFreq (get_frequency rate)
              :: concat (map (block (get_frequency rate)) blocks) ++ map WData tail))
      with (data_bytes (concat (map (block (get_frequency rate)) blocks)
                        ++ map WData tail)).
    apply deframe_blocks; [exact Hall | rewrite Ht; zdiv]. }
  rewrite Hdef, Hdata, unpack_pack_pairs by apply codes_range.
  rewrite codes_length. reflexivity.
Qed.

(** ** The row index *)

(** X9.  When the entries of the state table used by the program lie between
    [lo] and [hi], every row index of the [upd7759_step] lookup lies between
    [lo - 15] and [hi], whatever the samples and the starting state are. *)
Theorem row_indices_bounded
  (upd7759_step : Z -> Z -> Z) (upd7759_state_table : Z -> Z)
  (lo hi : Z) (st : Z) (data : list Z) :
  (forall v, in_table v -> lo <= upd7759_state_table v <= hi) ->
  Forall (fun r => lo - 15 <= r <= hi)
         (row_indices upd7759_step upd7759_state_table st data).
Proof.
  intros Hbound. revert st. induction data as [|d rest IH]; intros st.
  - constructor.
  - cbn [row_indices]. constructor; [|apply IH].
    rewrite encode_sample_eq. cbn [fst].
    pose proof (clamp_range st) as Hs.
    pose proof (Hbound (working_value d) (clamp_range _)) as Ht. lia.
Qed.

Lemma state_table_entries (v : Z) :
  in_table v -> -1 <= Tables.state_table v <= 3.
Proof.
  unfold in_table. intros Hv.
  assert (H : v = 0 \/ v = 1 \/ v = 2 \/ v = 3 \/ v = 4 \/ v = 5 \/ v = 6 \/ v = 7 \/
              v = 8 \/ v = 9 \/ v = 10 \/ v = 11 \/ v = 12 \/ v = 13 \/ v = 14 \/
              v = 15) by lia.
  repeat (destruct H as [->|H]; [vm_compute; split; discriminate|]).
  subst v. vm_compute. split; discriminate.
Defined.

Lemma row_indices_bounded_witness :
  Forall (fun r => -1 - 15 <= r <= 3)
         (row_indices Tables.step Tables.state_table 0 [0; 1920; -32768; 896]).
Proof.
  apply (row_indices_bounded Tables.step Tables.state_table (-1) 3 0
           [0; 1920; -32768; 896]).
  exact state_table_entries.
Defined.

(** ** The loop index *)

Lemma for_loop_from
  (upd7759_step : Z -> Z -> Z) (upd7759_state_table : Z -> Z)
  (freq : Z) (data : Z -> Z) (data_size : Z) (m : nat) :
  data_size < 4294967296 ->
  forall (fuel : nat) (i : Z) (l : locals),
    0 <= i -> i + Z.of_nat m = data_size -> (m < fuel)%nat ->
    for_loop upd7759_step upd7759_state_table fuel freq data data_size i l =
      Some (loop upd7759_step upd7759_state_table freq l
              (map (fun k => data (Z.of_nat k)) (seq (Z.to_nat i) m))).
Proof.
  intros Hsize. induction m as [|m IH]; intros fuel i l Hi Hm Hfuel.
  - destruct fuel as [|fuel]; [lia|]. cbn [for_loop seq map loop].
    destruct (Z.ltb_spec i data_size); [lia | reflexivity].
  - destruct fuel as [|fuel]; [lia|]. cbn [for_loop seq map loop].
    destruct (Z.ltb_spec i data_size); [|lia].
    rewrite Z2Nat.id by exact Hi.
    destruct (loop_body upd7759_step upd7759_state_table freq l (data i))
      as [l1 w1].
    assert (Ei : to_uint32 (i + 1) = i + 1)
      by (unfold to_uint32; apply Z.mod_small; lia).
    rewrite Ei, (IH fuel (i + 1) l1) by lia.
    replace (Z.to_nat (i + 1)) with (S (Z.to_nat i)) by lia.
    destruct (loop upd7759_step upd7759_state_table freq l1
                (map (fun k => data (Z.of_nat k)) (seq (S (Z.to_nat i)) m)))
      as [l2 w2].
    reflexivity.
Qed.

(** X10.  With fewer than 2^32 samples the [for] loop with its [uint32_t]
    index ends, after [data_size] iterations, and does to the locals and the
    output what the iteration over [data[0]], ..., [data[data_size - 1]] in
    order does. *)
Theorem for_loop_visits_the_buffer_in_order
  (upd7759_step : Z -> Z -> Z) (upd7759_state_table : Z -> Z)
  (freq : Z) (data : Z -> Z) (data_size : Z) (fuel : nat) :
  0 <= data_size < 4294967296 ->
  (Z.to_nat data_size < fuel)%nat ->
  for_loop upd7759_step upd7759_state_table fuel freq data data_size 0
           initial_locals =
    Some (loop upd7759_step upd7759_state_table freq initial_locals
            (buffer_list data (Z.to_nat data_size))).
Proof.
  intros Hsize Hfuel. unfold buffer_list.
  apply (for_loop_from upd7759_step upd7759_state_table freq data data_size
           (Z.to_nat data_size)); lia.
Qed.

Lemma for_loop_visits_the_buffer_in_order_witness :
  for_loop Tables.step Tables.state_table 4 8000 (fun i => 128 * i) 3 0
           initial_locals =
    Some (loop Tables.step Tables.state_table 8000 initial_locals
            (buffer_list (fun i => 128 * i) (Z.to_nat 3))).
Proof.
  apply (for_loop_visits_the_buffer_in_order Tables.step Tables.state_table
           8000 (fun i => 128 * i) 3 4).
  - lia.
  - simpl. lia.
Defined.

(** X11.  With 2^32 samples or more the loop never ends: the index wraps to 0
    before it can reach [data_size], so no number of iterations reaches the
    purge. *)
Theorem for_loop_never_ends_on_huge_buffer
  (upd7759_step : Z -> Z -> Z) (upd7759_state_table : Z -> Z)
  (freq : Z) (data : Z -> Z) (data_size : Z) (fuel : nat) :
  4294967296 <= data_size ->
  for_loop upd7759_step upd7759_state_table fuel freq data data_size 0
           initial_locals = None.
Proof.
  intros Hsize.
  assert (H : forall (i : Z) (l : locals), 0 <= i < 4294967296 ->
            for_loop upd7759_step upd7759_state_table fuel freq data data_size i l
              = None).
  { induction fuel as [|fuel IH]; intros i l Hi; [reflexivity|].
    cbn [for_loop]. destruct (Z.ltb_spec i data_size); [|lia].
    destruct (loop_body upd7759_step upd7759_state_table freq l (data i))
      as [l1 w1].
    rewrite IH; [reflexivity|]. unfold to_uint32. zdiv. }
  apply H. lia.
Qed.

Lemma for_loop_never_ends_on_huge_buffer_witness :
  for_loop Tables.step Tables.state_table 1000 8000 (fun _ => 0) 4294967296 0
           initial_locals = None.
Proof.
  apply (for_loop_never_ends_on_huge_buffer Tables.step Tables.state_table
           8000 (fun _ => 0) 4294967296 1000).
  lia.
Defined.

(** ** The options *)

Lemma fold_process_argument (returns : list (Ascii.ascii * String.string)) :
  forall o : options_t,
    let o' := fold_left process_argument returns o in
    inputFileName o' =
      match last_argument "i"%char returns with
      | Some a => Some a
      | None => inputFileName o
      end /\
    outputFileName o' =
      match last_argument "o"%char returns with
      | Some a => Some a
      | None => outputFileName o
      end /\
    verbose o' =
      if existsb (fun r => Ascii.eqb (fst r) "v"%char) returns then 1 else verbose o.
Proof.
  induction returns as [|[c optarg] rest IH]; intros o; cbv zeta.
  - repeat split.
  - cbn [fold_left last_argument existsb fst].
    specialize (IH (process_argument o (c, optarg))). cbv zeta in IH.
    destruct IH as (Hi & Ho & Hv). rewrite Hi, Ho, Hv. clear Hi Ho Hv.
    unfold process_argument.
    destruct (last_argument "i"%char rest), (last_argument "o"%char rest),
      (existsb (fun r => Ascii.eqb (fst r) "v"%char) rest);
      (destruct (Ascii.eqb_spec c "i"%char) as [->|Ni];
       [repeat split; reflexivity|]);
      (destruct (Ascii.eqb_spec c "o"%char) as [->|No];
       [repeat split; reflexivity|]);
      (destruct (Ascii.eqb_spec c "v"%char) as [->|Nv];
       repeat split; reflexivity).
Qed.

(** X12.  After [process_arguments] the input name is the argument of the
    last [-i], the output name the argument of the last [-o], and [verbose]
    is 1 exactly when some [-v] was seen; every other return of [getopt]
    changes nothing.  Without [-i] the input is standard input, without [-o]
    the output is standard output. *)
Theorem process_arguments_keeps_last
  (returns : list (Ascii.ascii * String.string)) :
  let o := process_arguments returns in
  inputFileName o = last_argument "i"%char returns /\
  outputFileName o = last_argument "o"%char returns /\
  verbose o =
    (if existsb (fun r => Ascii.eqb (fst r) "v"%char) returns then 1 else 0) /\
  (last_argument "i"%char returns = None -> open_input o = Standard) /\
  (last_argument "o"%char returns = None -> open_output o = Standard) /\
  (forall c a, c <> "i"%char -> c <> "o"%char -> c <> "v"%char ->
     process_arguments (returns ++ [(c, a)]) = o).
Proof.
  cbv zeta. unfold process_arguments.
  destruct (fold_process_argument returns options_initial) as (Hi & Ho & Hv).
  cbv zeta in Hi, Ho, Hv. cbn [inputFileName outputFileName verbose options_initial]
    in Hi, Ho, Hv.
  assert (Hi' : inputFileName (fold_left process_argument returns options_initial)
                = last_argument "i"%char returns)
    by (rewrite Hi; destruct (last_argument "i"%char returns); reflexivity).
  assert (Ho' : outputFileName (fold_left process_argument returns options_initial)
                = last_argument "o"%char returns)
    by (rewrite Ho; destruct (last_argument "o"%char returns); reflexivity).
  split; [exact Hi'|]. split; [exact Ho'|]. split; [exact Hv|].
  split; [|split].
  - intros Hnone. unfold open_input. rewrite Hi', Hnone. reflexivity.
  - intros Hnone. unfold open_output. rewrite Ho', Hnone. reflexivity.
  - intros c a Ni No Nv. rewrite fold_left_app. cbn [fold_left].
    unfold process_argument at 1.
    destruct (Ascii.eqb_spec c "i"%char); [contradiction|].
    destruct (Ascii.eqb_spec c "o"%char); [contradiction|].
    destruct (Ascii.eqb_spec c "v"%char); [contradiction|].
    reflexivity.
Qed.

(** X13.  When the sixteen entries of the state table are one constant of
    0..15, every row index of the [upd7759_step] lookup lies inside the table,
    for every buffer: the state then only alternates between that constant
    and 0. *)
Theorem constant_state_table_keeps_rows_in_table
  (upd7759_step : Z -> Z -> Z) (upd7759_state_table : Z -> Z)
  (c : Z) (data : list Z) :
  in_table c ->
  (forall v, in_table v -> upd7759_state_table v = c) ->
  Forall in_table (row_indices upd7759_step upd7759_state_table 0 data).
Proof.
  intros Hc Hconst.
  assert (H : forall st, st = 0 \/ st = c ->
            Forall in_table (row_indices upd7759_step upd7759_state_table st data)).
  { induction data as [|d rest IH]; intros st Hst; [constructor|].
    cbn [row_indices]. rewrite encode_sample_eq. cbn [fst].
    rewrite (Hconst (working_value d)) by apply clamp_range.
    assert (Hcl : clamp st = st)
      by (apply clamp_id; unfold in_table in Hc; destruct Hst; subst; lia).
    rewrite Hcl. constructor.
    - unfold in_table in *. destruct Hst; subst; lia.
    - apply IH. destruct Hst; subst; [right | left]; lia. }
  apply H. left. reflexivity.
Qed.

Lemma constant_state_table_keeps_rows_in_table_witness :
  Forall in_table (row_indices Tables.step (fun _ => 5) 0 [0; 1920; -32768; 896]).
Proof.
  apply (constant_state_table_keeps_rows_in_table Tables.step (fun _ => 5) 5
           [0; 1920; -32768; 896]).
  - unfold in_table. lia.
  - intros v _. reflexivity.
Defined.
